(** * SafePlates: the recipe workflow of [app.py]

    A shallow embedding of [src/app.py]: the three node functions of the
    LangGraph state graph, the condition on the edge out of
    [recipe_generator], the compiled graph with its checkpointer, and the
    Gradio callback [process_request] that drives a session.

    Python values are modelled as follows.
    - [str] is [string], read as a sequence of code points below 256; on
      these [find], [split], [strip] and slices are Python's.
    - the [State] dict is a [gmap string pyval]: keys may be absent, as
      [TypedDict] does not enforce their presence at run time.
    - exceptions are values of [exn]; a computation returns [Res A].
    - the OpenAI client, [uuid.uuid4], the [MemorySaver] and the in-place
      mutation of the dict handed to a node are explicit state. *)

From Stdlib Require Import String Ascii List Arith Lia Bool.
From stdpp Require Import base option gmap strings list fin_maps.
Import ListNotations.

(** ** Python strings *)

Module Str.

(** The character [\n] of the f-strings. *)
Definition nl : string := String (ascii_of_nat 10) EmptyString.

(** [s[n:]] for [0 <= n]. *)
Fixpoint drop (n : nat) (s : string) : string :=
  match n, s with
  | 0, _ => s
  | S _, EmptyString => EmptyString
  | S n', String _ s' => drop n' s'
  end.

(** [s[:n]] for [0 <= n]. *)
Fixpoint take (n : nat) (s : string) : string :=
  match n, s with
  | 0, _ => EmptyString
  | S _, EmptyString => EmptyString
  | S n', String c s' => String c (take n' s')
  end.

(** [s.find(sub)]: the lowest index at which [sub] occurs in [s]. *)
Fixpoint find (sub s : string) : option nat :=
  if String.prefix sub s then Some 0
  else match s with
       | EmptyString => None
       | String _ s' => option_map S (find sub s')
       end.

(** [sub in s]. *)
Definition contains (sub s : string) : bool :=
  match find sub s with Some _ => true | None => false end.

(** [s.split(sep)] for a non-empty [sep]: cut at the first occurrence,
    continue behind it.  The recursion is on a counter that starts at
    [len(s)]; every cut consumes at least one character. *)
Fixpoint split_from (fuel : nat) (sep s : string) : list string :=
  match find sep s with
  | None => [s]
  | Some i =>
      match fuel with
      | 0 => [s]
      | S fuel' =>
          take i s :: split_from fuel' sep (drop (i + String.length sep) s)
      end
  end.

Definition split (sep s : string) : list string :=
  split_from (String.length s) sep s.

(** [str.isspace] on one character below 256: TAB, LF, VT, FF, CR
    (9-13), FS, GS, RS, US and the blank (28-32), NEXT LINE (133) and
    NO-BREAK SPACE (160). *)
Definition isspace (c : ascii) : bool :=
  let n := nat_of_ascii c in
  (Nat.leb 9 n && Nat.leb n 13) || (Nat.leb 28 n && Nat.leb n 32)
  || Nat.eqb n 133 || Nat.eqb n 160.

Fixpoint lstrip (s : string) : string :=
  match s with
  | EmptyString => EmptyString
  | String c s' => if isspace c then lstrip s' else s
  end.

Fixpoint rstrip (s : string) : string :=
  match s with
  | EmptyString => EmptyString
  | String c s' =>
      match rstrip s' with
      | EmptyString => if isspace c then EmptyString else String c EmptyString
      | r => String c r
      end
  end.

(** [s.strip()] *)
Definition strip (s : string) : string := rstrip (lstrip s).

End Str.

(** ** Python values, exceptions, and the state-and-exception monad *)

(** The values stored in the [State] dict: [str] and [bool]. *)
Inductive pyval : Type :=
| VStr (s : string)
| VBool (b : bool).

(** [bool(v)]: the truth value Python's [if] and [and] test. *)
Definition truthy (v : pyval) : bool :=
  match v with
  | VStr EmptyString => false
  | VStr _ => true
  | VBool b => b
  end.

(** [str(v)], what an f-string interpolates. *)
Definition format (v : pyval) : string :=
  match v with
  | VStr s => s
  | VBool true => "True"
  | VBool false => "False"
  end.

(** [class State(TypedDict)]: a dict from field names to values. *)
Abbreviation State := (gmap string pyval).

(** The exceptions that reach the caller.  [OpenAIError] stands for any
    exception raised by [client.chat.completions.create]. *)
Inductive exn : Type :=
| KeyError (key : string)
| IndexError
| TypeError
| OpenAIError
| EmptyInputError
| GraphRecursionError.

Inductive Res (A : Type) : Type :=
| Ok (a : A)
| Err (e : exn).
Arguments Ok {A} a.
Arguments Err {A} e.

(** A computation over a mutable store [S] that may raise.  The store
    survives an exception: what was mutated before the [raise] stays. *)
Definition M (S A : Type) : Type := S -> Res A * S.

Definition ret {S A : Type} (a : A) : M S A := fun s => (Ok a, s).

Definition bind {S A B : Type} (m : M S A) (k : A -> M S B) : M S B :=
  fun s => match m s with
           | (Ok a, s') => k a s'
           | (Err e, s') => (Err e, s')
           end.

Definition raise {S A : Type} (e : exn) : M S A := fun s => (Err e, s).

Definition of_res {S A : Type} (r : Res A) : M S A := fun s => (r, s).

(** The outcome of a run is a value, not an exception. *)
Definition succeeded {S A : Type} (x : Res A * S) : bool :=
  match fst x with
  | Ok _ => true
  | Err _ => false
  end.

(** Run a computation on the second component of a pair of stores. *)
Definition lift {X S A : Type} (m : M S A) : M (X * S) A :=
  fun xs => match m (snd xs) with (r, s') => (r, (fst xs, s')) end.

(** Act on the first component only. *)
Definition modify_fst {X S : Type} (f : X -> X) : M (X * S) unit :=
  fun xs => (Ok tt, (f (fst xs), snd xs)).

Definition read_fst {X S : Type} : M (X * S) X :=
  fun xs => (Ok (fst xs), xs).

Declare Scope py_scope.
Delimit Scope py_scope with py.
Notation "x <- m ;; k" := (bind m (fun x => k))
  (at level 100, m at next level, right associativity) : py_scope.
Notation "m ;;; k" := (bind m (fun _ => k))
  (at level 100, right associativity) : py_scope.
Local Open Scope py_scope.

(** [d[k]] on a dict value. *)
Definition dict_get (k : string) (d : State) : Res pyval :=
  match d !! k with
  | Some v => Ok v
  | None => Err (KeyError k)
  end.

(** [k in d] *)
Definition dict_has (k : string) (d : State) : bool :=
  match d !! k with Some _ => true | None => false end.

(** [v[n:]]; a [bool] is not subscriptable. *)
Definition slice_from (n : nat) (v : pyval) : Res string :=
  match v with
  | VStr s => Ok (Str.drop n s)
  | VBool _ => Err TypeError
  end.

(** ** The world outside the callback *)

(** A checkpoint of one thread, as the [MemorySaver] keeps it: the channel
    values, the node that runs next ([None] once the graph reached [END]),
    and the node whose writes produced the checkpoint ([None] when only the
    input was written). *)
Record Checkpoint : Type := mkCheckpoint {
  cp_values : State;
  cp_next : option string;
  cp_last : option string
}.

(** The state shared by all calls: the requests sent to the client, the
    [MemorySaver], the uuids handed out, and, to state which nodes a call
    runs, the names of the nodes started. *)
Record World : Type := mkWorld {
  w_calls : list string;              (** prompts sent to the client, oldest first *)
  w_ran : list string;                (** nodes the graph started, oldest first *)
  w_memory : gmap string Checkpoint;  (** [memory = MemorySaver()], by thread id *)
  w_uuids : nat                       (** number of [uuid.uuid4()] calls so far *)
}.

Definition set_calls (f : list string -> list string) (w : World) : World :=
  mkWorld (f (w_calls w)) (w_ran w) (w_memory w) (w_uuids w).
Definition set_ran (f : list string -> list string) (w : World) : World :=
  mkWorld (w_calls w) (f (w_ran w)) (w_memory w) (w_uuids w).
Definition set_memory (f : gmap string Checkpoint -> gmap string Checkpoint)
    (w : World) : World :=
  mkWorld (w_calls w) (w_ran w) (f (w_memory w)) (w_uuids w).
Definition set_uuids (f : nat -> nat) (w : World) : World :=
  mkWorld (w_calls w) (w_ran w) (w_memory w) (f (w_uuids w)).

Definition get_world : M World World := fun w => (Ok w, w).

(** Lookup in a list of pairs keyed by name (first match). *)
Fixpoint assoc {V : Type} (k : string) (l : list (string * V)) : option V :=
  match l with
  | [] => None
  | (k', v) :: l' => if String.eqb k k' then Some v else assoc k l'
  end.

(** The dict handed to a node is the first component of the node's store. *)
Definition getitem {W : Type} (k : string) : M (State * W) pyval :=
  fun dw => (dict_get k (fst dw), dw).

Definition setitem {W : Type} (k : string) (v : pyval) : M (State * W) unit :=
  modify_fst (fun d : State => <[k := v]> d).

Definition haskey {W : Type} (k : string) : M (State * W) bool :=
  fun dw => (Ok (dict_has k (fst dw)), dw).

(** [graph.stream] in its default mode yields one dict per finished node,
    [{name: update}], and [{"__interrupt__": ()}] when it stops before an
    interrupt node. *)
Inductive Event : Type :=
| Update (name : string) (update : State)
| Interrupt.

(** A node: a function on the dict it is given, returning a dict. *)
Definition Node : Type := M (State * World) State.

(** What [graph_builder] collects: [add_node], [add_edge] and
    [add_conditional_edges] (source, condition, path map). *)
Record StateGraph : Type := mkStateGraph {
  nodes : list (string * Node);
  edges : list (string * string);
  conditional_edges : list (string * ((State -> Res string) * list (string * string)))
}.

(** [graph_builder.compile(checkpointer=memory, interrupt_before=...)];
    the checkpointer is [w_memory]. *)
Record CompiledGraph : Type := mkCompiledGraph {
  builder : StateGraph;
  interrupt_before : list string
}.

Definition START : string := "__start__".
Definition END : string := "__end__".

(** One row of the chat history: [(user text or None, bot text)]. *)
Definition Entry : Type := option string * pyval.

(** What [process_request] yields: [history, state, user_id]. *)
Definition Yield : Type := list Entry * State * string.

(** ** The compiled graph: LangGraph's loop, as [app.py] uses it

    The library is not part of the repository; the definitions below follow
    its behaviour for a graph whose steps run one node at a time, with a
    checkpointer, in the default stream mode ("updates"):
    - the state given to a node is a fresh dict of the channel values; the
      dict the node returns is written key by key over them;
    - the condition of a conditional edge reads the values with the node's
      writes applied, and a checkpoint is saved after every step;
    - the event of a finished node reaches the consumer of [stream] after
      that checkpoint is saved and before the next node starts;
    - before a node of [interrupt_before] the loop stops, unless the run is
      a resumption ([stream(None, ...)]) that has not run a node yet;
    - [recursion_limit] is 25 steps.
    The dicts that reach the graph from [app.py] hold fields of [State]
    only; what LangGraph does with other keys is not modelled. *)

Module Pregel.

Definition recursion_limit : nat := 25.

Definition target (t : string) : option string :=
  if String.eqb t END then None else Some t.

(** The node that follows [n] when the values are [st]: through the
    conditional edge of [n] if it has one, else through its edge. *)
Definition successor (g : CompiledGraph) (n : string) (st : State)
    : Res (option string) :=
  match assoc n (conditional_edges (builder g)) with
  | Some (condition, path_map) =>
      match condition st with
      | Ok label =>
          match assoc label path_map with
          | Some t => Ok (target t)
          | None => Err (KeyError label)
          end
      | Err e => Err e
      end
  | None =>
      match assoc n (edges (builder g)) with
      | Some t => Ok (target t)
      | None => Ok None
      end
  end.

Definition values_of (w : World) (thread_id : string) : State :=
  match w_memory w !! thread_id with
  | Some cp => cp_values cp
  | None => ∅
  end.

Definition save (thread_id : string) (cp : Checkpoint) : M World unit :=
  fun w => (Ok tt, set_memory (fun m => <[thread_id := cp]> m) w).

(** [graph.get_state(config).values] *)
Definition get_state (thread_id : string) : M World State :=
  fun w => (Ok (values_of w thread_id), w).

(** [graph.update_state(config, values)] with [as_node] left out: the
    values are written as if by the node that ran last ([START] when none
    did), and the edges out of that node are followed again. *)
Definition update_state (g : CompiledGraph) (thread_id : string) (values : State)
    : M World unit :=
  w <- get_world ;;
  let cp := w_memory w !! thread_id in
  let as_node := default START (cp ≫= cp_last) in
  let vals := values ∪ values_of w thread_id in
  nxt <- of_res (successor g as_node vals) ;;
  save thread_id (mkCheckpoint vals nxt (cp ≫= cp_last)).

(** Run node [n] on a fresh dict holding [vals].  The dict itself is
    dropped afterwards; only what the node returns is used. *)
Definition run_node (g : CompiledGraph) (n : string) (vals : State) : M World State :=
  fun w =>
    match assoc n (nodes (builder g)) with
    | None => (Err (KeyError n), w)
    | Some f =>
        match f (vals, set_ran (fun l => l ++ [n]) w) with
        | (r, (_, w')) => (r, w')
        end
    end.

(** One step: run [n], apply its writes, pick the next node, checkpoint. *)
Definition execute (g : CompiledGraph) (thread_id : string) (cp : Checkpoint)
    (n : string) : M World Event :=
  upd <- run_node g n (cp_values cp) ;;
  let vals := upd ∪ cp_values cp in
  nxt <- of_res (successor g n vals) ;;
  _ <- save thread_id (mkCheckpoint vals nxt (Some n)) ;;
  ret (Update n upd).

Section Stream.
Context {X A : Type}.
Variable g : CompiledGraph.
Variable thread_id : string.
(** The body of the [for event in graph.stream(...)] loop, acting on
    the loop's variables [A]. *)
Variable body : Event -> A -> M (X * World) A.

Fixpoint deliver (events : list Event) (acc : A) : M (X * World) A :=
  match events with
  | [] => ret acc
  | e :: rest => acc' <- body e acc ;; deliver rest acc'
  end.

Fixpoint loop (fuel : nat) (resuming : bool) (pending : list Event) (acc : A)
    : M (X * World) A :=
  w <- lift get_world ;;
  match w_memory w !! thread_id with
  | None => deliver pending acc
  | Some cp =>
      match cp_next cp with
      | None => deliver pending acc
      | Some n =>
          if existsb (String.eqb n) (interrupt_before g) && negb resuming
          then deliver (pending ++ [Interrupt]) acc
          else
            match fuel with
            | 0 => _ <- deliver pending acc ;; raise GraphRecursionError
            | S fuel' =>
                acc' <- deliver pending acc ;;
                ev <- lift (execute g thread_id cp n) ;;
                loop fuel' false [ev] acc'
            end
      end
  end.

(** [for event in graph.stream(input, config): body] *)
Definition stream (input : option State) (acc : A) : M (X * World) A :=
  match input with
  | None =>
      w <- lift get_world ;;
      match w_memory w !! thread_id with
      | None => raise EmptyInputError
      | Some _ => loop recursion_limit true [] acc
      end
  | Some inp =>
      w <- lift get_world ;;
      let vals := inp ∪ values_of w thread_id in
      nxt <- of_res (successor g START vals) ;;
      _ <- lift (save thread_id (mkCheckpoint vals nxt None)) ;;
      loop recursion_limit false [] acc
  end.
End Stream.

End Pregel.

(** ** The f-strings of [app.py] *)

Definition generate_prompt (request : pyval) : string :=
  "Generate a detailed recipe for: " +:+ format request.

Definition analyze_prompt (recipe : pyval) : string :=
  "Analyze this recipe for common allergenes (nuts, dairy, gluten, shellfish, eggs). Only respond with 'ALLERGENES FOUND' plus the allergenes detected or 'NO ALLERGENES': "
  +:+ format recipe.

Definition modify_prompt (recipe feedback : pyval) : string :=
  "Modify this recipe according to dietary restrictions: " +:+ format recipe
  +:+ Str.nl +:+ "Restrictions: " +:+ format feedback.

Definition question (shown : string) : string :=
  "Are you allergic to any of the following ingredients:" +:+ Str.nl
  +:+ shown +:+ Str.nl +:+ "If so, please specify which ones.".

Definition final_message (final_recipe : pyval) : string :=
  "Here's your final recipe:" +:+ Str.nl +:+ Str.nl +:+ format final_recipe.

(** What the callback reaches outside the process.
    [completion n prompt] is
    [client.chat.completions.create(model="gpt-4", messages=[{"role":
    "user", "content": prompt}]).choices[0].message.content] for the
    request number [n] of the process (counted from 0), [None] when the
    request raises; [uuid4 n] is [str(uuid.uuid4())] at its [n]-th use. *)
Class Externals : Type := mkExternals {
  completion : nat -> string -> option string;
  uuid4 : nat -> string
}.

Section App.

Context {ext : Externals}.

Definition create (prompt : string) : M World string :=
  fun w =>
    let w' := set_calls (fun l => l ++ [prompt]) w in
    match completion (length (w_calls w)) prompt with
    | Some content => (Ok content, w')
    | None => (Err OpenAIError, w')
    end.

(** *** The node functions *)

Definition recipe_generator : Node :=
  request <- getitem "recipe_request" ;;
  response <- lift (create (generate_prompt request)) ;;
  _ <- setitem "recipe" (VStr response) ;;
  recipe <- getitem "recipe" ;;
  allergenes_check <- lift (create (analyze_prompt recipe)) ;;
  piece <- of_res (match Str.split "ALLERGENES FOUND" allergenes_check !! 1 with
                   | Some p => Ok p
                   | None => Err IndexError
                   end) ;;
  _ <- setitem "allergenes" (VStr (Str.strip piece)) ;;
  _ <- setitem "allergenes_detected"
         (VBool (Str.contains "ALLERGENES FOUND" allergenes_check)) ;;
  read_fst.

Definition human_feedback_handler : Node :=
  _ <- setitem "allergenes_detected" (VBool false) ;;
  read_fst.

Definition recipe_finalizer : Node :=
  present <- haskey "human_feedback" ;;
  given <- (if present : bool
            then (v <- getitem "human_feedback" ;; ret (truthy v))
            else ret false) ;;
  _ <- (if given : bool
        then
          recipe <- getitem "recipe" ;;
          feedback <- getitem "human_feedback" ;;
          response <- lift (create (modify_prompt recipe feedback)) ;;
          setitem "final_recipe" (VStr response)
        else
          recipe <- getitem "recipe" ;;
          setitem "final_recipe" recipe) ;;
  read_fst.

Definition allergenes_check_condition (state : State) : Res string :=
  match dict_get "allergenes_detected" state with
  | Ok v => Ok (if truthy v then "human_feedback_handler" else "recipe_finalizer")
  | Err e => Err e
  end.

(** *** The graph *)

Definition graph_builder : StateGraph :=
  {| nodes := [ ("recipe_generator", recipe_generator);
                ("human_feedback_handler", human_feedback_handler);
                ("recipe_finalizer", recipe_finalizer) ];
     edges := [ (START, "recipe_generator");
                ("human_feedback_handler", "recipe_finalizer");
                ("recipe_finalizer", END) ];
     conditional_edges :=
       [ ("recipe_generator",
          (allergenes_check_condition,
           [ ("human_feedback_handler", "human_feedback_handler");
             ("recipe_finalizer", "recipe_finalizer") ])) ] |}.

Definition graph : CompiledGraph :=
  {| builder := graph_builder;
     interrupt_before := ["human_feedback_handler"] |}.

(** *** The Gradio callback *)

(** [yield history, state, user_id] *)
Definition yield_ (y : Yield) : M (list Yield * World) unit :=
  modify_fst (fun ys => ys ++ [y]).

Definition mint : M World string :=
  fun w => (Ok (uuid4 (w_uuids w)), set_uuids S w).

(** What the loop of [process_request] appends to [history] for [event]. *)
Definition on_event (event : Event) (history : list Entry) : Res (list Entry) :=
  match event with
  | Update name ev =>
      if String.eqb name "recipe_generator" then
        match dict_get "allergenes_detected" ev with
        | Err e => Err e
        | Ok detected =>
            if truthy detected then
              match dict_get "allergenes" ev with
              | Err e => Err e
              | Ok a =>
                  match slice_from 2 a with
                  | Err e => Err e
                  | Ok shown =>
                      Ok (history ++ [(None, VStr (question shown))])
                  end
              end
            else
              match dict_get "recipe" ev with
              | Err e => Err e
              | Ok r => Ok (history ++ [(None, r)])
              end
        end
      else if String.eqb name "recipe_finalizer" then
        match dict_get "final_recipe" ev with
        | Err e => Err e
        | Ok r =>
            Ok (history ++ [(None, VStr (final_message r))])
        end
      else Ok history
  | Interrupt => Ok history
  end.

(** One turn of the loop over the events: re-read the thread's values,
    extend the history, yield. *)
Definition loop_body (user_id : string) (event : Event) (vars : list Entry * State)
    : M (list Yield * World) (list Entry * State) :=
  state <- lift (Pregel.get_state user_id) ;;
  history <- of_res (on_event event (fst vars)) ;;
  _ <- yield_ (history, state, user_id) ;;
  ret (history, state).

(** [process_request(message, history, state, user_id)], a generator: the
    store of the computation holds what was yielded so far, each yield a
    copy of [history], [state] and [user_id] as they are at that point.
    [state] and [user_id] are [None] on a new page; [history] is the list
    the chat shows. *)
Definition process_request (message : string) (history : list Entry)
    (state : option State) (user_id : option string) : M (list Yield * World) unit :=
  user_id <- match user_id with
             | None | Some EmptyString => lift mint
             | Some u => ret u
             end ;;
  vars <- match state with
          | Some st =>
              if decide (st = ∅) then
                ret ([(Some message, VStr "Generating recipe...")],
                     ({[ "recipe_request" := VStr message ]} : State))
              else if match st !! "allergenes_detected" with
                      | Some v => truthy v
                      | None => false
                      end
              then
                let st' : State := <["human_feedback" := VStr message]> st in
                _ <- lift (Pregel.update_state graph user_id st') ;;
                ret (history ++ [(Some message, VStr "Updating recipe...")], st')
              else ret (history, st)
          | None =>
              ret ([(Some message, VStr "Generating recipe...")],
                   ({[ "recipe_request" := VStr message ]} : State))
          end ;;
  _ <- yield_ (fst vars, snd vars, user_id) ;;
  _ <- Pregel.stream graph user_id (loop_body user_id)
         (if dict_has "human_feedback" (snd vars) then None else Some (snd vars))
         vars ;;
  ret tt.

(** *** Sessions

    One browser session: [state] and [user_id] start as [gr.State(None)];
    every submit that returns feeds what it yielded last back into the next
    one.  Between two submits of the session other sessions may run; they
    leave this session's thread in the [MemorySaver] alone. *)
Inductive Session : list Entry -> option State -> option string -> World -> Prop :=
| Session_new (h : list Entry) (w : World) :
    Session h None None w
| Session_submit (h : list Entry) (st : option State) (u : option string) (w : World)
    (message : string) (ys : list Yield) (w' : World)
    (h' : list Entry) (st' : State) (u' : string) :
    Session h st u w ->
    process_request message h st u ([], w) = (Ok tt, (ys, w')) ->
    last ys = Some (h', st', u') ->
    Session h' (Some st') (Some u') w'
| Session_others (h : list Entry) (st : option State) (u : option string) (w w' : World) :
    Session h st u w ->
    (forall t, u = Some t -> w_memory w' !! t = w_memory w !! t) ->
    Session h st u w'.

(** The session waits for the user's answer: the thread stopped before
    [human_feedback_handler] after [recipe_generator], and the state shown
    to the callback has the flag set. *)
Definition Waiting (st : State) (u : string) (w : World) : Prop :=
  u <> EmptyString /\
  (exists v, st !! "allergenes_detected" = Some v /\ truthy v = true) /\
  exists cp, w_memory w !! u = Some cp /\
             cp_next cp = Some "human_feedback_handler" /\
             cp_last cp = Some "recipe_generator".

(** The session is over: the thread reached [END], the state holds the
    final recipe and the history ends with it. *)
Definition Completed (h : list Entry) (st : State) (u : string) (w : World) : Prop :=
  u <> EmptyString /\
  st !! "allergenes_detected" = Some (VBool false) /\
  is_Some (st !! "human_feedback") /\
  (exists r, st !! "final_recipe" = Some r /\
             last h = Some (None, VStr (final_message r))) /\
  exists cp, w_memory w !! u = Some cp /\ cp_next cp = None.

End App.

(** ** The example buttons *)

(** [load_example(example_num)]; the number comes from a [gr.Number]. *)
Definition load_example (example_num : Z) : option string :=
  if (example_num =? 1)%Z then Some "I want a recipe for a lemon cake"
  else if (example_num =? 2)%Z then Some "I want a recipe for chocolate cookies"
  else if (example_num =? 3)%Z then Some "I want a recipe for banana bread"
  else None.

(** [example_buttonN.click(fn=load_example, inputs=[gr.Number(value=N)],
    outputs=[msg]).then(process_request, inputs=[msg, chatbot, state,
    user_id], ...)]: the text of the example goes to the textbox and the
    callback runs on it.  The three buttons pass 1, 2 and 3; [None] stands
    for a number without an example text. *)
Definition example_click {ext : Externals} (example_num : Z) (history : list Entry)
    (state : option State) (user_id : option string)
    : option (M (list Yield * World) unit) :=
  match load_example example_num with
  | Some message => Some (process_request message history state user_id)
  | None => None
  end.

(** The longest path from a pending node to [END], counted in nodes; a name
    that is no node of the graph fails at once. *)
Definition steps_left (next : option string) : nat :=
  match next with
  | None => 0
  | Some n =>
      if String.eqb n "recipe_generator" then 3
      else if String.eqb n "human_feedback_handler" then 2
      else 1
  end.

(** The thread id a call works on, and the world after a uuid was drawn
    for it when the caller had none. *)
Definition resolve_user {ext : Externals} (user_id : option string) (w : World)
    : string * World :=
  match user_id with
  | None | Some EmptyString => (uuid4 (w_uuids w), set_uuids S w)
  | Some u => (u, w)
  end.

(** ** Concrete runs *)

Module Scenario.

Definition w0 : World := mkWorld [] [] ∅ 0.

(** The classifier flags dairy and eggs, in the format the prompt of
    [recipe_generator] asks for, followed by a colon. *)
Definition cookies : Externals :=
  {| completion := fun n _ =>
       match n with
       | 0 => Some "DRAFT"
       | 1 => Some "ALLERGENES FOUND: dairy, eggs"
       | 2 => Some "REVISED"
       | _ => None
       end;
     uuid4 := fun _ => "3f2b" |}.

(** The same, with a blank after the marker. *)
Definition cookies_blank : Externals :=
  {| completion := fun n _ =>
       match n with
       | 0 => Some "DRAFT"
       | 1 => Some "ALLERGENES FOUND dairy, eggs"
       | _ => None
       end;
     uuid4 := fun _ => "3f2b" |}.

(** The classifier finds nothing. *)
Definition lemon : Externals :=
  {| completion := fun n _ =>
       match n with
       | 0 => Some "DRAFT"
       | 1 => Some "NO ALLERGENES"
       | _ => None
       end;
     uuid4 := fun _ => "3f2b" |}.

(** The parts of a run of [process_request]: what it yielded last, and the
    world it left. *)
Definition Run : Type := Res unit * (list Yield * World).

Definition world_of (r : Run) : World := snd (snd r).

Definition last_history (r : Run) : list Entry :=
  match last (fst (snd r)) with
  | Some (h, _, _) => h
  | None => []
  end.

Definition last_state (r : Run) : State :=
  match last (fst (snd r)) with
  | Some (_, st, _) => st
  | None => ∅
  end.

Definition last_user (r : Run) : string :=
  match last (fst (snd r)) with
  | Some (_, _, u) => u
  | None => EmptyString
  end.

(** The text of the last row of the history shown. *)
Definition last_reply (r : Run) : string :=
  match last (last_history r) with
  | Some (_, v) => format v
  | None => EmptyString
  end.

(** Submit with the outputs of an earlier submit as inputs. *)
Definition again {ext : Externals} (message : string) (prev : Run) : Run :=
  process_request message (last_history prev) (Some (last_state prev))
    (Some (last_user prev)) ([], world_of prev).

Definition first_cookies : Run :=
  process_request (ext := cookies) "chocolate cookies" [] None None ([], w0).
Definition second_cookies : Run := again (ext := cookies) "no dairy please" first_cookies.
Definition third_cookies : Run := again (ext := cookies) "anything" second_cookies.

Definition first_blank : Run :=
  process_request (ext := cookies_blank) "chocolate cookies" [] None None ([], w0).

Definition first_lemon : Run :=
  process_request (ext := lemon) "lemon cake" [] None None ([], w0).

(** [recipe_generator] alone, on the dict of a lemon cake request. *)
Definition generate_lemon : Res State * (State * World) :=
  recipe_generator (ext := lemon) ({[ "recipe_request" := VStr "lemon cake" ]}, w0).

(** [recipe_generator] alone, on the dict of a cookies request. *)
Definition generate_cookies : Res State * (State * World) :=
  recipe_generator (ext := cookies) ({[ "recipe_request" := VStr "chocolate cookies" ]}, w0).

(** The cookies session answered with an empty text. *)
Definition empty_cookies : Run := again (ext := cookies) EmptyString first_cookies.

(** The first example button pressed while the cookies session waits. *)
Definition click_cookies : Run :=
  again (ext := cookies) "I want a recipe for a lemon cake" first_cookies.

(** The client fails on the request to modify the recipe, once. *)
Definition cookies_flaky : Externals :=
  {| completion := fun n _ =>
       match n with
       | 0 => Some "DRAFT"
       | 1 => Some "ALLERGENES FOUND: dairy, eggs"
       | 3 => Some "REVISED"
       | _ => None
       end;
     uuid4 := fun _ => "3f2b" |}.

Definition first_flaky : Run :=
  process_request (ext := cookies_flaky) "chocolate cookies" [] None None ([], w0).
Definition second_flaky : Run := again (ext := cookies_flaky) "no dairy please" first_flaky.
Definition third_flaky : Run := again (ext := cookies_flaky) "once more" second_flaky.

End Scenario.

(** * Properties *)

(** ** Strings *)

Lemma prefix_app (sub rest : string) : String.prefix sub (sub +:+ rest) = true.
Proof.
  induction sub as [|c sub IH]; simpl.
  - destruct rest; reflexivity.
  - destruct (ascii_dec c c) as [_|Hne]; [exact IH | contradiction].
Qed.

Lemma drop_length (n : nat) (s : string) :
  String.length (Str.drop n s) = String.length s - n.
Proof.
  revert s; induction n as [|n IH]; intros s; simpl.
  - lia.
  - destruct s as [|c s]; simpl; [reflexivity | apply IH].
Qed.

(** [find] returns a position at which [sub] occurs, and the first one. *)
Lemma find_Some (sub s : string) (i : nat) :
  Str.find sub s = Some i ->
  String.prefix sub (Str.drop i s) = true /\
  forall j, j < i -> String.prefix sub (Str.drop j s) = false.
Proof.
  revert i; induction s as [|c s IH]; intros i; cbn [Str.find].
  - destruct (String.prefix sub EmptyString) eqn:Hp; [|discriminate].
    intros [= <-]. split; [exact Hp | lia].
  - destruct (String.prefix sub (String c s)) eqn:Hp.
    + intros [= <-]. split; [exact Hp | lia].
    + destruct (Str.find sub s) as [k|] eqn:Hk; simpl; [|discriminate].
      intros [= <-]. destruct (IH k eq_refl) as [H1 H2]. split; [exact H1|].
      intros [|j] Hj; simpl; [exact Hp | apply H2; lia].
Qed.

Lemma find_None (sub s : string) (j : nat) :
  Str.find sub s = None -> String.prefix sub (Str.drop j s) = false.
Proof.
  revert j; induction s as [|c s IH]; intros j; cbn [Str.find].
  - destruct (String.prefix sub EmptyString) eqn:Hp; [discriminate|].
    intros _. destruct j; exact Hp.
  - destruct (String.prefix sub (String c s)) eqn:Hp; [discriminate|].
    destruct (Str.find sub s) eqn:Hk; simpl; [discriminate|].
    intros _. destruct j as [|j]; simpl; [exact Hp | apply IH; reflexivity].
Qed.

Lemma find_prefix (sub s : string) :
  String.prefix sub s = true -> Str.find sub s = Some 0.
Proof. intros H. destruct s; cbn [Str.find]; rewrite H; reflexivity. Qed.

Lemma find_app (sub a rest : string) :
  exists i, Str.find sub (a +:+ sub +:+ rest) = Some i.
Proof.
  induction a as [|c a [i IH]].
  - exists 0. apply find_prefix. change (EmptyString +:+ sub +:+ rest) with (sub +:+ rest).
    apply prefix_app.
  - change (String c a +:+ sub +:+ rest) with (String c (a +:+ sub +:+ rest)).
    cbn [Str.find].
    destruct (String.prefix sub (String c (a +:+ sub +:+ rest))); [eauto|].
    rewrite IH; simpl; eauto.
Qed.

(** [sub in a + sub + rest] *)
Lemma contains_infix (sub a rest : string) :
  Str.contains sub (a +:+ sub +:+ rest) = true.
Proof. unfold Str.contains. destruct (find_app sub a rest) as [i ->]. reflexivity. Qed.

(** [s.split(sep)] has a second piece only when [sep in s]. *)
Lemma split_second_contains (sep s piece : string) :
  Str.split sep s !! 1 = Some piece -> Str.contains sep s = true.
Proof.
  unfold Str.split, Str.contains.
  destruct (String.length s); simpl; destruct (Str.find sep s); simpl;
    first [reflexivity | discriminate].
Qed.

Lemma split_from_cons (n : nat) (sep s : string) :
  exists piece rest, Str.split_from n sep s = piece :: rest.
Proof. destruct n; simpl; destruct (Str.find sep s); eauto. Qed.

(** Conversely, for a separator that is not empty. *)
Lemma split_contains_second (sep s : string) :
  sep <> EmptyString -> Str.contains sep s = true ->
  exists piece, Str.split sep s !! 1 = Some piece.
Proof.
  unfold Str.split, Str.contains. intros Hsep Hc.
  destruct (Str.find sep s) as [i|] eqn:Hf; [|discriminate].
  destruct s as [|c s].
  - destruct sep; [contradiction | discriminate].
  - cbn [String.length Str.split_from]. rewrite Hf.
    destruct (split_from_cons (String.length s) sep
                (Str.drop (i + String.length sep) (String c s))) as (p & r & ->).
    exists p. reflexivity.
Qed.

(** The counter of [split] never runs out: any larger one gives the same
    pieces. *)
Lemma split_from_enough (sep s : string) (n m : nat) :
  sep <> EmptyString -> String.length s <= n -> String.length s <= m ->
  Str.split_from n sep s = Str.split_from m sep s.
Proof.
  intros Hsep. destruct sep as [|a sep]; [contradiction|clear Hsep].
  revert s m.
  induction n as [|n IH]; intros s m Hn Hm.
  - destruct s; [|simpl in Hn; lia]. destruct m; reflexivity.
  - destruct m as [|m].
    + destruct s; [|simpl in Hm; lia]. reflexivity.
    + simpl. destruct (Str.find (String a sep) s) as [i|] eqn:Hf; [|reflexivity].
      f_equal. apply IH; rewrite drop_length; simpl; lia.
Qed.

Lemma rstrip_rstrip (s : string) : Str.rstrip (Str.rstrip s) = Str.rstrip s.
Proof.
  induction s as [|c s IH]; [reflexivity|].
  cbn [Str.rstrip]. destruct (Str.rstrip s) as [|c' r] eqn:E.
  - destruct (Str.isspace c) eqn:Hc; [reflexivity|].
    cbn [Str.rstrip]. rewrite Hc. reflexivity.
  - cbn [Str.rstrip] in *. rewrite IH. reflexivity.
Qed.

Lemma lstrip_head (s : string) :
  match Str.lstrip s with
  | EmptyString => True
  | String c _ => Str.isspace c = false
  end.
Proof.
  induction s as [|c s IH]; [exact I|].
  cbn [Str.lstrip]. destruct (Str.isspace c) eqn:Hc; [exact IH | exact Hc].
Qed.

Lemma strip_strip (s : string) : Str.strip (Str.strip s) = Str.strip s.
Proof.
  unfold Str.strip.
  assert (Hl : Str.lstrip (Str.rstrip (Str.lstrip s)) = Str.rstrip (Str.lstrip s)).
  { pose proof (lstrip_head s) as Hh.
    destruct (Str.lstrip s) as [|c t]; [reflexivity|].
    cbn [Str.rstrip]. rewrite Hh.
    destruct (Str.rstrip t); cbn [Str.lstrip]; rewrite Hh; reflexivity. }
  rewrite Hl. apply rstrip_rstrip.
Qed.

Lemma prefix_empty (x : string) : String.prefix EmptyString x = true.
Proof. destruct x; reflexivity. Qed.

Lemma prefix_of_empty (sep : string) :
  String.prefix sep EmptyString = true -> sep = EmptyString.
Proof. destruct sep; [reflexivity | discriminate]. Qed.

Lemma prefix_mono (sep a b : string) :
  String.prefix sep a = true -> String.prefix sep (a +:+ b) = true.
Proof.
  revert a; induction sep as [|c sep IH]; intros a; [intros _; apply prefix_empty|].
  destruct a as [|c' a]; [discriminate|].
  change (String c' a +:+ b) with (String c' (a +:+ b)). cbn [String.prefix].
  destruct (ascii_dec c c'); [apply IH | discriminate].
Qed.

Lemma drop_app_prefix (sep : string) (j : nat) (a b : string) :
  String.prefix sep (Str.drop j a) = true ->
  String.prefix sep (Str.drop j (a +:+ b)) = true.
Proof.
  revert a; induction j as [|j IH]; intros a.
  - cbn [Str.drop]. destruct a; apply prefix_mono.
  - destruct a as [|c a].
    + cbn [Str.drop]. intros H. rewrite (prefix_of_empty _ H). apply prefix_empty.
    + change (String c a +:+ b) with (String c (a +:+ b)). cbn [Str.drop]. apply IH.
Qed.

Lemma drop_drop (j k : nat) (s : string) :
  Str.drop j (Str.drop k s) = Str.drop (k + j) s.
Proof.
  revert s; induction k as [|k IH]; intros s; [reflexivity|].
  destruct s as [|c s]; cbn [Str.drop Nat.add].
  - destruct j; reflexivity.
  - apply IH.
Qed.

Lemma drop_all (j : nat) (s : string) :
  String.length s <= j -> Str.drop j s = EmptyString.
Proof.
  revert s; induction j as [|j IH]; intros s H.
  - destruct s; [reflexivity | simpl in H; lia].
  - destruct s as [|c s]; [reflexivity|]. cbn [Str.drop]. apply IH. simpl in H. lia.
Qed.

Lemma take_length (i : nat) (s : string) : String.length (Str.take i s) <= i.
Proof.
  revert s; induction i as [|i IH]; intros s; [simpl; lia|].
  destruct s as [|c s]; simpl; [lia|]. specialize (IH s). lia.
Qed.

Lemma take_drop (i : nat) (s : string) : s = Str.take i s +:+ Str.drop i s.
Proof.
  revert s; induction i as [|i IH]; intros s; [reflexivity|].
  destruct s as [|c s]; [reflexivity|].
  cbn [Str.take Str.drop]. change (String c (Str.take i s) +:+ Str.drop i s)
    with (String c (Str.take i s +:+ Str.drop i s)). f_equal. apply IH.
Qed.

(** [sub in s] says that [sub] starts at some position of [s]. *)
Lemma contains_spec (sep s : string) :
  Str.contains sep s = true <-> exists j, String.prefix sep (Str.drop j s) = true.
Proof.
  unfold Str.contains. destruct (Str.find sep s) as [i|] eqn:Hf.
  - split; [intros _|reflexivity]. exists i. exact (proj1 (find_Some _ _ _ Hf)).
  - split; [discriminate|]. intros [j Hj]. rewrite (find_None _ _ j Hf) in Hj. discriminate.
Qed.

Lemma contains_app_l (sep a b : string) :
  Str.contains sep a = true -> Str.contains sep (a +:+ b) = true.
Proof.
  rewrite !contains_spec. intros [j Hj]. exists j. apply drop_app_prefix, Hj.
Qed.

Lemma contains_drop (sep : string) (k : nat) (s : string) :
  Str.contains sep (Str.drop k s) = true -> Str.contains sep s = true.
Proof.
  rewrite !contains_spec. intros [j Hj]. exists (k + j). rewrite <- drop_drop. exact Hj.
Qed.

Lemma lstrip_drop (s : string) : exists k, Str.lstrip s = Str.drop k s.
Proof.
  induction s as [|c s [k IH]]; [exists 0; reflexivity|].
  cbn [Str.lstrip]. destruct (Str.isspace c); [exists (S k); exact IH | exists 0; reflexivity].
Qed.

Lemma rstrip_app (s : string) : exists t, s = Str.rstrip s +:+ t.
Proof.
  induction s as [|c s [t IH]]; [exists EmptyString; reflexivity|].
  cbn [Str.rstrip]. destruct (Str.rstrip s) as [|c' r] eqn:E.
  - destruct (Str.isspace c).
    + exists (String c s). reflexivity.
    + exists t. change (String c EmptyString +:+ t) with (String c (EmptyString +:+ t)).
      f_equal. exact IH.
  - exists t. change (String c (String c' r) +:+ t) with (String c (String c' r +:+ t)).
    f_equal. exact IH.
Qed.

Lemma contains_strip (sep s : string) :
  Str.contains sep (Str.strip s) = true -> Str.contains sep s = true.
Proof.
  unfold Str.strip. intros H.
  destruct (lstrip_drop s) as [k Hk].
  apply (contains_drop sep k). rewrite <- Hk.
  destruct (rstrip_app (Str.lstrip s)) as [t Ht]. rewrite Ht.
  apply contains_app_l, H.
Qed.

(** The text before the first occurrence of [sep] holds no [sep]. *)
Lemma contains_take_first (sep s : string) (i : nat) :
  sep <> EmptyString -> Str.find sep s = Some i ->
  Str.contains sep (Str.take i s) = false.
Proof.
  intros Hsep Hf. destruct (Str.contains sep (Str.take i s)) eqn:Hc; [|reflexivity].
  exfalso. apply contains_spec in Hc as [j Hj].
  destruct (find_Some _ _ _ Hf) as [_ Hmin].
  destruct (Nat.lt_ge_cases j i) as [Hlt | Hge].
  - pose proof (drop_app_prefix sep j (Str.take i s) (Str.drop i s) Hj) as H.
    rewrite <- take_drop in H. rewrite (Hmin j Hlt) in H. discriminate.
  - rewrite drop_all in Hj by (pose proof (take_length i s); lia).
    apply Hsep, prefix_of_empty, Hj.
Qed.

(** The second piece of [s.split(sep)] holds no [sep]. *)
Lemma split_second_clean (sep s piece : string) :
  sep <> EmptyString -> Str.split sep s !! 1 = Some piece ->
  Str.contains sep piece = false.
Proof.
  intros Hsep. unfold Str.split.
  destruct (String.length s) as [|n] eqn:Hlen; cbn [Str.split_from];
    destruct (Str.find sep s) as [i|] eqn:Hf; try discriminate.
  set (rest := Str.drop (i + String.length sep) s).
  assert (Hrest : String.length rest <= n).
  { unfold rest. rewrite drop_length, Hlen.
    destruct sep; [contradiction | simpl; lia]. }
  rewrite (split_from_enough sep rest n (S (String.length rest)) Hsep Hrest (Nat.le_succ_diag_r _)).
  cbn [Str.split_from].
  destruct (Str.find sep rest) as [j|] eqn:Hr; intros [= <-].
  - apply contains_take_first; assumption.
  - unfold Str.contains. rewrite Hr. reflexivity.
Qed.

(** [isspace] holds of exactly the twelve code points below 256 that
    Python counts as whitespace. *)
Lemma isspace_spec (c : ascii) :
  Str.isspace c
  = existsb (Nat.eqb (nat_of_ascii c)) [9; 10; 11; 12; 13; 28; 29; 30; 31; 32; 133; 160].
Proof. destruct c as [[] [] [] [] [] [] [] []]; reflexivity. Qed.

(** [strip] removes NO-BREAK SPACE and NEXT LINE like any other blank. *)
Lemma strip_latin1 :
  Str.strip (String (ascii_of_nat 160) ("a b" +:+ String (ascii_of_nat 133) " ")) = "a b".
Proof. reflexivity. Qed.

Lemma prefix_refl (sub : string) : String.prefix sub sub = true.
Proof.
  induction sub as [|c sub IH]; [reflexivity|]. cbn [String.prefix].
  destruct (ascii_dec c c); [exact IH | contradiction].
Qed.

Lemma contains_self (sub : string) : Str.contains sub sub = true.
Proof. apply contains_spec. exists 0. apply prefix_refl. Qed.

Lemma drop_app_length (a b : string) : Str.drop (String.length a) (a +:+ b) = b.
Proof. induction a as [|c a IH]; [reflexivity | exact IH]. Qed.

(** [sub in b] gives [sub in a + b]. *)
Lemma contains_app_r (sub a b : string) :
  Str.contains sub b = true -> Str.contains sub (a +:+ b) = true.
Proof.
  rewrite !contains_spec. intros [j Hj]. exists (String.length a + j).
  rewrite <- drop_drop, drop_app_length. exact Hj.
Qed.

(** ** The node functions, as equations *)

Section NodeFacts.

Context {ext : Externals}.

Ltac run_monad :=
  cbv [bind ret raise of_res lift modify_fst read_fst getitem setitem haskey
       create dict_get dict_has fst snd].

Lemma recipe_generator_eq (d : State) (w : World) :
  recipe_generator (d, w) =
  match d !! "recipe_request" with
  | None => (Err (KeyError "recipe_request"), (d, w))
  | Some request =>
      let w1 := set_calls (fun l => l ++ [generate_prompt request]) w in
      match completion (length (w_calls w)) (generate_prompt request) with
      | None => (Err OpenAIError, (d, w1))
      | Some response =>
          let d1 : State := <["recipe" := VStr response]> d in
          let w2 := set_calls (fun l => l ++ [analyze_prompt (VStr response)]) w1 in
          match completion (S (length (w_calls w))) (analyze_prompt (VStr response)) with
          | None => (Err OpenAIError, (d1, w2))
          | Some check =>
              match Str.split "ALLERGENES FOUND" check !! 1 with
              | None => (Err IndexError, (d1, w2))
              | Some piece =>
                  let d3 : State :=
                    <["allergenes_detected" := VBool (Str.contains "ALLERGENES FOUND" check)]>
                      (<["allergenes" := VStr (Str.strip piece)]> d1) in
                  (Ok d3, (d3, w2))
              end
          end
      end
  end.
Proof.
  unfold recipe_generator. run_monad.
  destruct (d !! "recipe_request") as [request|]; [|reflexivity].
  destruct (completion (length (w_calls w)) (generate_prompt request)) as [response|];
    [|reflexivity].
  rewrite lookup_insert_eq.
  replace (length (w_calls (set_calls (fun l => l ++ [generate_prompt request]) w)))
    with (S (length (w_calls w)))
    by (unfold set_calls; simpl; rewrite length_app; simpl; lia).
  destruct (completion (S (length (w_calls w))) (analyze_prompt (VStr response)))
    as [check|]; [|reflexivity].
  destruct (Str.split "ALLERGENES FOUND" check !! 1); reflexivity.
Qed.

Lemma human_feedback_handler_eq (d : State) (w : World) :
  human_feedback_handler (d, w) =
  (Ok (<["allergenes_detected" := VBool false]> d),
   (<["allergenes_detected" := VBool false]> d, w)).
Proof. reflexivity. Qed.

Lemma recipe_finalizer_eq (d : State) (w : World) :
  recipe_finalizer (d, w) =
  match d !! "recipe" with
  | None => (Err (KeyError "recipe"), (d, w))
  | Some recipe =>
      match d !! "human_feedback" with
      | Some feedback =>
          if truthy feedback then
            let w1 := set_calls (fun l => l ++ [modify_prompt recipe feedback]) w in
            match completion (length (w_calls w)) (modify_prompt recipe feedback) with
            | None => (Err OpenAIError, (d, w1))
            | Some response =>
                (Ok (<["final_recipe" := VStr response]> d),
                 (<["final_recipe" := VStr response]> d, w1))
            end
          else (Ok (<["final_recipe" := recipe]> d), (<["final_recipe" := recipe]> d, w))
      | None => (Ok (<["final_recipe" := recipe]> d), (<["final_recipe" := recipe]> d, w))
      end
  end.
Proof.
  unfold recipe_finalizer. run_monad.
  destruct (d !! "human_feedback") as [feedback|] eqn:Hf; run_monad; rewrite ?Hf.
  - destruct (truthy feedback); run_monad;
      destruct (d !! "recipe") as [recipe|] eqn:Hr; run_monad;
      rewrite ?Hf; try reflexivity.
    destruct (completion (length (w_calls w)) (modify_prompt recipe feedback));
      reflexivity.
  - destruct (d !! "recipe") as [recipe|]; reflexivity.
Qed.

End NodeFacts.

(** ** The loop on this graph *)

Section EngineFacts.

Context {ext : Externals}.

Lemma successor_start (st : State) :
  Pregel.successor graph START st = Ok (Some "recipe_generator").
Proof. reflexivity. Qed.

Lemma successor_generator (st : State) :
  Pregel.successor graph "recipe_generator" st =
  match st !! "allergenes_detected" with
  | Some v => Ok (Some (if truthy v then "human_feedback_handler" else "recipe_finalizer"))
  | None => Err (KeyError "allergenes_detected")
  end.
Proof.
  unfold Pregel.successor; simpl. unfold allergenes_check_condition, dict_get.
  destruct (st !! "allergenes_detected") as [v|]; [|reflexivity].
  destruct (truthy v); reflexivity.
Qed.

Lemma successor_handler (st : State) :
  Pregel.successor graph "human_feedback_handler" st = Ok (Some "recipe_finalizer").
Proof. reflexivity. Qed.

Lemma successor_finalizer (st : State) :
  Pregel.successor graph "recipe_finalizer" st = Ok None.
Proof. reflexivity. Qed.

Lemma loop_unfold {X A : Type} (tid : string) (body : Event -> A -> M (X * World) A)
    (fuel : nat) (resuming : bool) (pending : list Event) (acc : A) (x : X) (w : World) :
  Pregel.loop graph tid body (S fuel) resuming pending acc (x, w) =
  match w_memory w !! tid with
  | None => Pregel.deliver body pending acc (x, w)
  | Some cp =>
      match cp_next cp with
      | None => Pregel.deliver body pending acc (x, w)
      | Some n =>
          if existsb (String.eqb n) (interrupt_before graph) && negb resuming
          then Pregel.deliver body (pending ++ [Interrupt]) acc (x, w)
          else
            match Pregel.deliver body pending acc (x, w) with
            | (Ok acc', (x', w')) =>
                match Pregel.execute graph tid cp n w' with
                | (Ok ev, w'') => Pregel.loop graph tid body fuel false [ev] acc' (x', w'')
                | (Err e, w'') => (Err e, (x', w''))
                end
            | (Err e, xw) => (Err e, xw)
            end
      end
  end.
Proof.
  cbn [Pregel.loop]. cbv [bind lift get_world fst snd].
  destruct (w_memory w !! tid) as [cp|]; [|reflexivity].
  destruct (cp_next cp) as [n|]; [|reflexivity].
  destruct (existsb (String.eqb n) (interrupt_before graph) && negb resuming);
    [reflexivity|].
  destruct (Pregel.deliver body pending acc (x, w)) as [[acc'|e] [x' w']]; [|reflexivity].
  destruct (Pregel.execute graph tid cp n w') as [[ev|e] w'']; reflexivity.
Qed.

Lemma execute_eq (tid : string) (cp : Checkpoint) (n : string) (f : Node) (w : World) :
  assoc n (nodes (builder graph)) = Some f ->
  Pregel.execute graph tid cp n w =
  match f (cp_values cp, set_ran (fun l => l ++ [n]) w) with
  | (Ok upd, (_, w')) =>
      match Pregel.successor graph n (upd ∪ cp_values cp) with
      | Ok nxt =>
          (Ok (Update n upd),
           set_memory (fun m => <[tid := mkCheckpoint (upd ∪ cp_values cp) nxt (Some n)]> m) w')
      | Err e => (Err e, w')
      end
  | (Err e, (_, w')) => (Err e, w')
  end.
Proof.
  intros Hf. unfold Pregel.execute, Pregel.run_node, Pregel.save.
  cbv [bind ret of_res]. rewrite Hf.
  destruct (f (cp_values cp, set_ran (fun l => l ++ [n]) w)) as [[upd|e] [d' w']];
    [|reflexivity].
  destruct (Pregel.successor graph n (upd ∪ cp_values cp)); reflexivity.
Qed.


Lemma loop_body_eq (u : string) (ev : Event) (h : list Entry) (s : State)
    (ys : list Yield) (w : World) :
  loop_body u ev (h, s) (ys, w) =
  match on_event ev h with
  | Ok h' => (Ok (h', Pregel.values_of w u), (ys ++ [(h', Pregel.values_of w u, u)], w))
  | Err e => (Err e, (ys, w))
  end.
Proof.
  unfold loop_body, Pregel.get_state, yield_.
  cbv [bind ret of_res lift modify_fst fst snd].
  destruct (on_event ev h); reflexivity.
Qed.

Lemma on_event_handler (upd : State) (h : list Entry) :
  on_event (Update "human_feedback_handler" upd) h = Ok h.
Proof. reflexivity. Qed.

Lemma on_event_finalizer (upd : State) (h : list Entry) :
  on_event (Update "recipe_finalizer" upd) h =
  match dict_get "final_recipe" upd with
  | Ok r => Ok (h ++ [(None, VStr (final_message r))])
  | Err e => Err e
  end.
Proof. reflexivity. Qed.

Lemma on_event_generator (upd : State) (h : list Entry) :
  on_event (Update "recipe_generator" upd) h =
  match dict_get "allergenes_detected" upd with
  | Err e => Err e
  | Ok detected =>
      if truthy detected then
        match dict_get "allergenes" upd with
        | Err e => Err e
        | Ok a =>
            match slice_from 2 a with
            | Err e => Err e
            | Ok shown => Ok (h ++ [(None, VStr (question shown))])
            end
        end
      else
        match dict_get "recipe" upd with
        | Err e => Err e
        | Ok r => Ok (h ++ [(None, r)])
        end
  end.
Proof. reflexivity. Qed.

Lemma memory_set (f : gmap string Checkpoint -> gmap string Checkpoint) (w : World) :
  w_memory (set_memory f w) = f (w_memory w).
Proof. reflexivity. Qed.

Lemma values_of_saved (u : string) (cp : Checkpoint) (w : World) :
  Pregel.values_of (set_memory (fun m => <[u := cp]> m) w) u = cp_values cp.
Proof. unfold Pregel.values_of. rewrite memory_set, lookup_insert_eq. reflexivity. Qed.

(** A resumption of a thread that reached [END] yields nothing. *)
Lemma stream_done {X A : Type} (u : string) (body : Event -> A -> M (X * World) A)
    (acc : A) (x : X) (w : World) (cp : Checkpoint) :
  w_memory w !! u = Some cp -> cp_next cp = None ->
  Pregel.stream graph u body None acc (x, w) = (Ok acc, (x, w)).
Proof.
  intros Hm Hn. unfold Pregel.stream. cbv [bind lift get_world fst snd].
  rewrite Hm. unfold Pregel.recursion_limit. rewrite loop_unfold, Hm, Hn. reflexivity.
Qed.

(** A resumption of a thread that waits before [human_feedback_handler]
    runs that node, then [recipe_finalizer]. *)
Lemma stream_resume (u : string) (h : list Entry) (s : State) (ys : list Yield)
    (w : World) (cp : Checkpoint) :
  w_memory w !! u = Some cp -> cp_next cp = Some "human_feedback_handler" ->
  Pregel.stream graph u (loop_body u) None (h, s) (ys, w) =
  let vals1 : State :=
    <["allergenes_detected" := VBool false]> (cp_values cp) ∪ cp_values cp in
  let w1 :=
    set_memory (fun m => <[u := mkCheckpoint vals1 (Some "recipe_finalizer")
                                   (Some "human_feedback_handler")]> m)
      (set_ran (fun l => l ++ ["human_feedback_handler"]) w) in
  match recipe_finalizer (vals1, set_ran (fun l => l ++ ["recipe_finalizer"]) w1) with
  | (Err e, (_, w2)) => (Err e, (ys ++ [(h, vals1, u)], w2))
  | (Ok upd, (_, w2)) =>
      let vals2 : State := upd ∪ vals1 in
      let w3 :=
        set_memory (fun m => <[u := mkCheckpoint vals2 None (Some "recipe_finalizer")]> m) w2 in
      match dict_get "final_recipe" upd with
      | Ok r =>
          (Ok (h ++ [(None, VStr (final_message r))], vals2),
           (ys ++ [(h, vals1, u); (h ++ [(None, VStr (final_message r))], vals2, u)], w3))
      | Err e => (Err e, (ys ++ [(h, vals1, u)], w3))
      end
  end.
Proof.
  intros Hm Hn. unfold Pregel.stream. cbv [bind lift get_world fst snd].
  rewrite Hm. unfold Pregel.recursion_limit.
  rewrite loop_unfold, Hm, Hn.
  cbn [existsb interrupt_before graph String.eqb Ascii.eqb Bool.eqb andb orb negb
       Pregel.deliver app].
  cbv [ret].
  rewrite (execute_eq _ _ _ human_feedback_handler) by reflexivity.
  rewrite human_feedback_handler_eq, successor_handler.
  rewrite loop_unfold, memory_set, lookup_insert_eq.
  cbn [cp_next cp_values existsb interrupt_before graph String.eqb Ascii.eqb Bool.eqb andb orb negb
       Pregel.deliver app].
  cbv [bind ret].
  rewrite loop_body_eq, on_event_handler, values_of_saved. cbn [cp_values].
  rewrite (execute_eq _ _ _ recipe_finalizer) by reflexivity. cbn [cp_values].
  match goal with |- context [recipe_finalizer ?a] =>
    destruct (recipe_finalizer a) as [[upd|e] [d2 w2]] end; [|reflexivity].
  rewrite successor_finalizer.
  rewrite loop_unfold, memory_set, lookup_insert_eq.
  cbn [cp_next Pregel.deliver]. cbv [bind ret].
  rewrite loop_body_eq, on_event_finalizer, values_of_saved. cbn [cp_values].
  destruct (dict_get "final_recipe" upd); [|reflexivity].
  rewrite <- app_assoc. reflexivity.
Qed.


(** A run on a new input starts at [recipe_generator]; when that node fails,
    nothing but the input was written. *)
Lemma stream_input_fails (u : string) (inp : State) (h : list Entry) (s : State)
    (ys : list Yield) (w : World) (e : exn) (d' : State) (w1 : World) :
  let vals0 : State := inp ∪ Pregel.values_of w u in
  let w0 :=
    set_memory (fun m => <[u := mkCheckpoint vals0 (Some "recipe_generator") None]> m) w in
  recipe_generator (vals0, set_ran (fun l => l ++ ["recipe_generator"]) w0) = (Err e, (d', w1)) ->
  Pregel.stream graph u (loop_body u) (Some inp) (h, s) (ys, w) = (Err e, (ys, w1)).
Proof.
  intros vals0 w0 Hg. unfold Pregel.stream, Pregel.save.
  cbv [bind lift get_world of_res fst snd]. rewrite successor_start.
  unfold Pregel.recursion_limit. fold vals0. fold w0.
  rewrite loop_unfold. unfold w0 at 1. rewrite memory_set, lookup_insert_eq.
  cbn [cp_next existsb interrupt_before graph String.eqb Ascii.eqb Bool.eqb andb orb negb
       Pregel.deliver app].
  cbv [ret].
  rewrite (execute_eq _ _ _ recipe_generator) by reflexivity. cbn [cp_values].
  rewrite Hg. reflexivity.
Qed.

(** When it succeeds with the flag set, the loop stops before
    [human_feedback_handler]. *)
Lemma stream_input_pauses (u : string) (inp : State) (h : list Entry) (s : State)
    (ys : list Yield) (w : World) (upd d' : State) (w1 : World) (v : pyval) :
  let vals0 : State := inp ∪ Pregel.values_of w u in
  let w0 :=
    set_memory (fun m => <[u := mkCheckpoint vals0 (Some "recipe_generator") None]> m) w in
  let vals1 : State := upd ∪ vals0 in
  let w2 :=
    set_memory (fun m => <[u := mkCheckpoint vals1 (Some "human_feedback_handler")
                                   (Some "recipe_generator")]> m) w1 in
  recipe_generator (vals0, set_ran (fun l => l ++ ["recipe_generator"]) w0) = (Ok upd, (d', w1)) ->
  vals1 !! "allergenes_detected" = Some v -> truthy v = true ->
  Pregel.stream graph u (loop_body u) (Some inp) (h, s) (ys, w) =
  match on_event (Update "recipe_generator" upd) h with
  | Ok h' => (Ok (h', vals1), (ys ++ [(h', vals1, u); (h', vals1, u)], w2))
  | Err e => (Err e, (ys, w2))
  end.
Proof.
  intros vals0 w0 vals1 w2 Hg Hv Ht. unfold Pregel.stream, Pregel.save.
  cbv [bind lift get_world of_res fst snd]. rewrite successor_start.
  unfold Pregel.recursion_limit. fold vals0. fold w0.
  rewrite loop_unfold. unfold w0 at 1. rewrite memory_set, lookup_insert_eq.
  cbn [cp_next existsb interrupt_before graph String.eqb Ascii.eqb Bool.eqb andb orb negb
       Pregel.deliver app].
  cbv [ret].
  rewrite (execute_eq _ _ _ recipe_generator) by reflexivity. cbn [cp_values].
  rewrite Hg. fold vals1. rewrite successor_generator, Hv, Ht.
  rewrite loop_unfold, memory_set, lookup_insert_eq.
  cbn [cp_next existsb interrupt_before graph String.eqb Ascii.eqb Bool.eqb andb orb negb
       Pregel.deliver app].
  cbv [bind ret]. rewrite loop_body_eq, values_of_saved. cbn [cp_values].
  destruct (on_event (Update "recipe_generator" upd) h) as [h'|e]; [|reflexivity].
  rewrite loop_body_eq, values_of_saved. cbn [cp_values on_event].
  rewrite <- app_assoc. reflexivity.
Qed.

(** [update_state] on a thread whose last node is [recipe_generator]. *)
Lemma update_state_after_generator (u : string) (values : State) (w : World)
    (cp : Checkpoint) (v : pyval) :
  w_memory w !! u = Some cp -> cp_last cp = Some "recipe_generator" ->
  values !! "allergenes_detected" = Some v ->
  Pregel.update_state graph u values w =
  (Ok tt,
   set_memory (fun m => <[u := mkCheckpoint (values ∪ cp_values cp)
                                  (Some (if truthy v then "human_feedback_handler"
                                         else "recipe_finalizer"))
                                  (Some "recipe_generator")]> m) w).
Proof.
  intros Hm Hl Hv. unfold Pregel.update_state, Pregel.save, Pregel.values_of.
  cbv [bind get_world of_res]. rewrite Hm. cbn [mbind option_bind default].
  rewrite Hl. cbn [default]. rewrite successor_generator.
  rewrite (lookup_union_Some_l _ _ _ _ Hv). reflexivity.
Qed.

End EngineFacts.

(** ** Submits of one session *)

Section SessionFacts.

Context {ext : Externals}.

Ltac run_request :=
  unfold process_request, yield_;
  cbv [bind ret lift of_res modify_fst fst snd].

(** A submit on a completed session changes nothing. *)
Lemma submit_completed (message : string) (h : list Entry) (st : State) (u : string)
    (w : World) :
  Completed h st u w ->
  process_request message h (Some st) (Some u) ([], w) = (Ok tt, ([(h, st, u)], w)).
Proof.
  intros (Hu & Had & [fb Hfb] & _ & cp & Hm & Hn).
  run_request. destruct u as [|c u]; [contradiction|].
  destruct (decide (st = ∅)) as [->|_]; [rewrite lookup_empty in Had; discriminate|].
  rewrite Had. cbn [truthy]. cbv [ret fst snd]. unfold dict_has. rewrite Hfb.
  rewrite (stream_done _ _ _ _ _ cp Hm Hn). reflexivity.
Qed.


(** [recipe_finalizer] touches neither the thread nor the log of started
    nodes, and what it returns is its argument with [final_recipe] set. *)
Lemma recipe_finalizer_inv (d : State) (w : World) (r : Res State) (d' : State)
    (w' : World) :
  recipe_finalizer (d, w) = (r, (d', w')) ->
  w_ran w' = w_ran w /\ w_memory w' = w_memory w /\
  forall upd, r = Ok upd -> exists fr, upd = <["final_recipe" := fr]> d.
Proof.
  rewrite recipe_finalizer_eq.
  destruct (d !! "recipe") as [recipe|]; [|intros [= <- <- <-]; repeat split; discriminate].
  destruct (d !! "human_feedback") as [feedback|];
    [destruct (truthy feedback);
     [destruct (completion (length (w_calls w)) (modify_prompt recipe feedback))|]|];
    intros [= <- <- <-]; repeat split; try discriminate;
    intros upd [= <-]; eauto.
Qed.

(** A submit on a waiting session runs [human_feedback_handler] and then
    [recipe_finalizer]; when it returns, the session is completed. *)
Lemma submit_waiting (message : string) (h : list Entry) (st : State) (u : string)
    (w : World) (r : Res unit) (ys : list Yield) (w' : World) :
  Waiting st u w ->
  process_request message h (Some st) (Some u) ([], w) = (r, (ys, w')) ->
  w_ran w' = w_ran w ++ ["human_feedback_handler"; "recipe_finalizer"] /\
  (r = Ok tt ->
   exists h' st', last ys = Some (h', st', u) /\ Completed h' st' u w').
Proof.
  intros (Hu & (v & Hv & Ht) & cp & Hm & Hn & Hl).
  run_request. destruct u as [|c u0]; [contradiction|].
  set (u := String c u0) in *.
  destruct (decide (st = ∅)) as [->|_]; [rewrite lookup_empty in Hv; discriminate|].
  rewrite Hv, Ht.
  set (st1 := (<["human_feedback" := VStr message]> st : State)).
  assert (Hv1 : st1 !! "allergenes_detected" = Some v)
    by (unfold st1; rewrite lookup_insert_ne by done; exact Hv).
  rewrite (update_state_after_generator u st1 w cp v Hm Hl Hv1), Ht.
  cbv [ret fst snd]. unfold dict_has at 1. unfold st1 at 1. rewrite lookup_insert_eq.
  erewrite stream_resume;
    [|rewrite memory_set, lookup_insert_eq; reflexivity | reflexivity].
  cbn [cp_values].
  set (vals := (st1 ∪ cp_values cp : State)).
  set (vals1 := (<["allergenes_detected" := VBool false]> vals ∪ vals : State)).
  match goal with |- context [recipe_finalizer ?a] =>
    destruct (recipe_finalizer a) as [[upd|e] [d2 w2]] eqn:Hfin end;
    apply recipe_finalizer_inv in Hfin as (Hran & Hmem & Hupd).
  - destruct (Hupd upd eq_refl) as [fr ->].
    unfold dict_get. rewrite lookup_insert_eq.
    intros [= <- <- <-].
    split; [cbn [w_ran set_ran set_memory] in *; rewrite Hran, <- app_assoc; reflexivity|].
    intros _.
    eexists _, _. split; [reflexivity|].
    assert (Had : vals1 !! "allergenes_detected" = Some (VBool false))
      by (apply lookup_union_Some_l, lookup_insert_eq).
    assert (Hfb : vals1 !! "human_feedback" = Some (VStr message)).
    { apply lookup_union_Some_l. rewrite lookup_insert_ne by done.
      apply lookup_union_Some_l, lookup_insert_eq. }
    repeat split.
    + exact Hu.
    + apply lookup_union_Some_l. rewrite lookup_insert_ne by done. exact Had.
    + exists (VStr message). apply lookup_union_Some_l.
      rewrite lookup_insert_ne by done. exact Hfb.
    + exists fr. split; [apply lookup_union_Some_l, lookup_insert_eq|].
      apply last_snoc.
    + eexists. split; [rewrite memory_set; apply lookup_insert_eq | reflexivity].
  - intros [= <- <- <-].
    split; [cbn [w_ran set_ran set_memory] in *; rewrite Hran, <- app_assoc; reflexivity
           | discriminate].
Qed.


(** A run on a new request that returns has stopped before
    [human_feedback_handler], after one question to the user. *)
Lemma stream_request_inv (u message : string) (h : list Entry) (s : State)
    (ys0 : list Yield) (wa : World) (acc : list Entry * State) (ys : list Yield)
    (w' : World) :
  Pregel.stream graph u (loop_body u)
    (Some ({[ "recipe_request" := VStr message ]} : State)) (h, s) (ys0, wa)
  = (Ok acc, (ys, w')) ->
  exists (st' : State) (detail : string),
    acc = (h ++ [(None, VStr (question (Str.drop 2 detail)))], st') /\
    ys = ys0 ++ [(h ++ [(None, VStr (question (Str.drop 2 detail)))], st', u);
                 (h ++ [(None, VStr (question (Str.drop 2 detail)))], st', u)] /\
    st' !! "allergenes" = Some (VStr detail) /\
    st' !! "allergenes_detected" = Some (VBool true) /\
    (exists cp, w_memory w' !! u = Some cp /\
                cp_next cp = Some "human_feedback_handler" /\
                cp_last cp = Some "recipe_generator") /\
    w_ran w' = w_ran wa ++ ["recipe_generator"].
Proof.
  set (inp := ({[ "recipe_request" := VStr message ]} : State)).
  set (vals0 := (inp ∪ Pregel.values_of wa u : State)).
  set (w0 := set_memory
               (fun m => <[u := mkCheckpoint vals0 (Some "recipe_generator") None]> m) wa).
  destruct (recipe_generator (vals0, set_ran (fun l => l ++ ["recipe_generator"]) w0))
    as [[upd|e] [d' w1]] eqn:Hg.
  2: { rewrite (stream_input_fails u inp h s ys0 wa e d' w1 Hg). discriminate. }
  pose proof Hg as Hg'. rewrite recipe_generator_eq in Hg'.
  assert (Hreq : vals0 !! "recipe_request" = Some (VStr message))
    by (apply lookup_union_Some_l, lookup_singleton_eq).
  rewrite Hreq in Hg'. cbv zeta in Hg'.
  destruct (completion _ (generate_prompt (VStr message))) as [draft|]; [|discriminate].
  destruct (completion _ (analyze_prompt (VStr draft))) as [check|]; [|discriminate].
  destruct (Str.split "ALLERGENES FOUND" check !! 1) as [piece|] eqn:Hp; [|discriminate].
  rewrite (split_second_contains _ _ _ Hp) in Hg'.
  injection Hg' as Hupd _ Hw1.
  assert (Had : upd !! "allergenes_detected" = Some (VBool true))
    by (rewrite <- Hupd; apply lookup_insert_eq).
  assert (Hal : upd !! "allergenes" = Some (VStr (Str.strip piece)))
    by (rewrite <- Hupd; rewrite lookup_insert_ne by done; apply lookup_insert_eq).
  rewrite (stream_input_pauses u inp h s ys0 wa upd d' w1 (VBool true) Hg
             (lookup_union_Some_l _ _ _ _ Had) eq_refl).
  rewrite on_event_generator. unfold dict_get. rewrite Had, Hal. cbn [truthy slice_from].
  intros [= <- <- <-].
  exists (upd ∪ vals0), (Str.strip piece). repeat split.
  - apply lookup_union_Some_l, Hal.
  - apply lookup_union_Some_l, Had.
  - eexists. split; [rewrite memory_set; apply lookup_insert_eq | split; reflexivity].
  - rewrite <- Hw1. reflexivity.
Qed.


(** The first submit of a session, when it returns, leaves the session
    waiting, with one question in the history. *)
Lemma submit_new (message : string) (h : list Entry) (st0 : option State)
    (uid : option string) (w : World) (ys : list Yield) (w' : World) :
  st0 = None \/ st0 = Some ∅ ->
  (forall n, uuid4 n <> EmptyString) ->
  process_request message h st0 uid ([], w) = (Ok tt, (ys, w')) ->
  exists (st' : State) (u detail : string),
    last ys = Some ([(Some message, VStr "Generating recipe...");
                     (None, VStr (question (Str.drop 2 detail)))], st', u) /\
    st' !! "allergenes" = Some (VStr detail) /\
    Waiting st' u w' /\
    w_ran w' = w_ran w ++ ["recipe_generator"].
Proof.
  intros Hst Huuid.
  assert (Hgo : forall (u : string) (wa : World) (ys0 : list Yield),
    u <> EmptyString -> w_ran wa = w_ran w ->
    match Pregel.stream graph u (loop_body u)
            (Some ({[ "recipe_request" := VStr message ]} : State))
            ([(Some message, VStr "Generating recipe...")],
             ({[ "recipe_request" := VStr message ]} : State)) (ys0, wa)
    with
    | (Ok _, s') => (Ok tt, s')
    | (Err e, s') => (Err e, s')
    end = (Ok tt, (ys, w')) ->
    exists (st' : State) (u detail : string),
      last ys = Some ([(Some message, VStr "Generating recipe...");
                       (None, VStr (question (Str.drop 2 detail)))], st', u) /\
      st' !! "allergenes" = Some (VStr detail) /\
      Waiting st' u w' /\
      w_ran w' = w_ran w ++ ["recipe_generator"]).
  { intros u wa ys0 Hu Hran.
    destruct (Pregel.stream _ _ _ _ _ _) as [[acc|e] [ys1 w1]] eqn:Hs; [|discriminate].
    intros [= <- <-].
    apply stream_request_inv in Hs
      as (st' & detail & _ & -> & Hal & Had & Hcp & Hr).
    exists st', u, detail. repeat split; try assumption.
    - rewrite last_app. reflexivity.
    - exists (VBool true). split; [exact Had | reflexivity].
    - rewrite Hr, Hran. reflexivity. }
  assert (Hno : dict_has "human_feedback" ({[ "recipe_request" := VStr message ]} : State)
                = false)
    by (unfold dict_has; rewrite lookup_singleton_ne by done; reflexivity).
  run_request. unfold mint.
  destruct Hst as [-> | ->]; [|destruct (decide ((∅ : State) = ∅)) as [_|Hne]; [|contradiction]];
    destruct uid as [[|c u0]|]; cbv [ret fst snd]; rewrite Hno;
    apply Hgo; auto; discriminate.
Qed.

(** What holds of a session between two submits. *)
Lemma session_invariant (h : list Entry) (st : option State) (u : option string)
    (w : World) :
  (forall n, uuid4 n <> EmptyString) ->
  Session h st u w ->
  match st, u with
  | None, None => True
  | Some s, Some t => Waiting s t w \/ Completed h s t w
  | _, _ => False
  end.
Proof.
  intros Huuid Hs. induction Hs as [h w | h st u w message ys w' h' st' u' Hs IH Hrun Hlast
                                    | h st u w w' Hs IH Hframe].
  - exact I.
  - destruct st as [s|], u as [t|]; try contradiction.
    + destruct IH as [Hw | Hc].
      * destruct (submit_waiting _ _ _ _ _ _ _ _ Hw Hrun) as [_ Hdone].
        destruct (Hdone eq_refl) as (h1 & st1 & Hl & Hc).
        rewrite Hl in Hlast. injection Hlast as <- <- <-. right; exact Hc.
      * rewrite (submit_completed message _ _ _ _ Hc) in Hrun.
        injection Hrun as <- <-. simpl in Hlast. injection Hlast as <- <- <-.
        right; exact Hc.
    + destruct (submit_new _ _ _ _ _ _ _ (or_introl eq_refl) Huuid Hrun)
        as (s1 & t1 & detail & Hl & _ & Hw & _).
      rewrite Hl in Hlast. injection Hlast as _ <- <-. left; exact Hw.
  - destruct st as [s|], u as [t|]; try contradiction; [|exact I].
    specialize (Hframe t eq_refl).
    destruct IH as [(Hu & Hv & cp & Hm & Hn) | (Hu & Had & Hfb & Hr & cp & Hm & Hn)];
      [left | right]; repeat split; try assumption;
      exists cp; (split; [rewrite Hframe; exact Hm | exact Hn]).
Qed.

End SessionFacts.

(** ** The generate step *)

Section Generate.

Context {ext : Externals}.

(** [recipe_generator] changes the world only by the requests it sends. *)
Lemma recipe_generator_world (d : State) (w : World) (r : Res State) (d' : State)
    (w' : World) :
  recipe_generator (d, w) = (r, (d', w')) ->
  w_ran w' = w_ran w /\ w_memory w' = w_memory w /\ w_uuids w' = w_uuids w.
Proof.
  rewrite recipe_generator_eq.
  destruct (d !! "recipe_request") as [request|]; [|intros [= <- <- <-]; auto].
  destruct (completion _ (generate_prompt request)) as [draft|];
    [|intros [= <- <- <-]; auto].
  cbv zeta.
  destruct (completion _ (analyze_prompt (VStr draft))) as [check|];
    [|intros [= <- <- <-]; auto].
  destruct (Str.split "ALLERGENES FOUND" check !! 1);
    intros [= <- <- <-]; auto.
Qed.

(** When a request of [recipe_generator] fails, or its answer has no
    marker, the step writes no checkpoint: the thread is as before. *)
Lemma generator_failure_keeps_checkpoint (tid : string) (cp : Checkpoint) (w : World)
    (e : exn) (w' : World) :
  Pregel.execute graph tid cp "recipe_generator" w = (Err e, w') ->
  w_memory w' = w_memory w.
Proof.
  rewrite (execute_eq _ _ _ recipe_generator) by reflexivity.
  destruct (recipe_generator _) as [[upd|e0] [d' w1]] eqn:Hg;
    apply recipe_generator_world in Hg as (_ & Hm & _).
  - destruct (Pregel.successor _ _ _); [discriminate|].
    intros [= _ <-]. exact Hm.
  - intros [= _ <-]. exact Hm.
Qed.

(** An answer of the classifier without the marker makes the step raise
    [IndexError], although both requests were answered. *)
Lemma generator_unflagged_raises (d : State) (w : World) (request : pyval)
    (draft check : string) :
  d !! "recipe_request" = Some request ->
  completion (length (w_calls w)) (generate_prompt request) = Some draft ->
  completion (S (length (w_calls w))) (analyze_prompt (VStr draft)) = Some check ->
  Str.contains "ALLERGENES FOUND" check = false ->
  fst (recipe_generator (d, w)) = Err IndexError.
Proof.
  intros Hr H1 H2 Hc. rewrite recipe_generator_eq, Hr, H1. cbv zeta. rewrite H2.
  destruct (Str.split "ALLERGENES FOUND" check !! 1) as [piece|] eqn:Hp; [|reflexivity].
  apply split_second_contains in Hp. congruence.
Qed.

(** What [recipe_generator] returns is its argument with three keys set. *)
Lemma recipe_generator_ok_inv (d : State) (w : World) (upd d' : State) (w' : World) :
  recipe_generator (d, w) = (Ok upd, (d', w')) ->
  exists (draft check piece : string),
    Str.split "ALLERGENES FOUND" check !! 1 = Some piece /\
    upd = <["allergenes_detected" := VBool (Str.contains "ALLERGENES FOUND" check)]>
            (<["allergenes" := VStr (Str.strip piece)]>
               (<["recipe" := VStr draft]> d)).
Proof.
  rewrite recipe_generator_eq.
  destruct (d !! "recipe_request") as [request|]; [|discriminate].
  destruct (completion _ (generate_prompt request)) as [draft|]; [|discriminate].
  cbv zeta.
  destruct (completion _ (analyze_prompt (VStr draft))) as [check|]; [|discriminate].
  destruct (Str.split "ALLERGENES FOUND" check !! 1) as [piece|] eqn:Hp; [|discriminate].
  intros [= <- _ _]. exists draft, check, piece. auto.
Qed.

(** C2: whenever [recipe_generator] returns, whatever the state and
    whatever the two answers of the client, [allergenes_detected] is
    [True]: the classifier's answer held the marker "ALLERGENES FOUND", the
    condition picks [human_feedback_handler], and so does the conditional
    edge of the graph.  The edge from [recipe_generator] to
    [recipe_finalizer] is never taken. *)
Theorem generator_success_flags (d : State) (w : World) (upd d' : State) (w' : World) :
  recipe_generator (d, w) = (Ok upd, (d', w')) ->
  upd !! "allergenes_detected" = Some (VBool true) /\
  (exists (request : pyval) (draft check : string),
     d !! "recipe_request" = Some request /\
     completion (length (w_calls w)) (generate_prompt request) = Some draft /\
     completion (S (length (w_calls w))) (analyze_prompt (VStr draft)) = Some check /\
     Str.contains "ALLERGENES FOUND" check = true) /\
  allergenes_check_condition upd = Ok "human_feedback_handler" /\
  forall vals : State,
    Pregel.successor graph "recipe_generator" (upd ∪ vals)
    = Ok (Some "human_feedback_handler").
Proof.
  rewrite recipe_generator_eq.
  destruct (d !! "recipe_request") as [request|]; [|discriminate].
  destruct (completion _ (generate_prompt request)) as [draft|] eqn:H1; [|discriminate].
  cbv zeta.
  destruct (completion _ (analyze_prompt (VStr draft))) as [check|] eqn:H2; [|discriminate].
  destruct (Str.split "ALLERGENES FOUND" check !! 1) as [piece|] eqn:Hp; [|discriminate].
  pose proof (split_second_contains _ _ _ Hp) as Hc. rewrite Hc.
  intros [= <- _ _].
  assert (Had : forall vals : State,
    ((<["allergenes_detected" := VBool true]>
        (<["allergenes" := VStr (Str.strip piece)]> (<["recipe" := VStr draft]> d)) : State)
       ∪ vals) !! "allergenes_detected" = Some (VBool true))
    by (intros vals; apply lookup_union_Some_l, lookup_insert_eq).
  repeat split.
  - apply lookup_insert_eq.
  - exists request, draft, check. auto.
  - unfold allergenes_check_condition, dict_get. rewrite lookup_insert_eq. reflexivity.
  - intros vals. rewrite successor_generator, Had. reflexivity.
Qed.

(** C10: on every state that holds [allergenes_detected], and every
    state returned by [recipe_generator] does, [allergenes_check_condition]
    returns a label and never an error: "human_feedback_handler" when the
    flag is true, "recipe_finalizer" when it is not, and each of the two
    only then.  The path map of the conditional edge sends either label to
    the node of that name. *)
Theorem condition_picks_edge :
  (forall (s : State) (v : pyval),
     s !! "allergenes_detected" = Some v ->
     allergenes_check_condition s
     = Ok (if truthy v then "human_feedback_handler" else "recipe_finalizer") /\
     Pregel.successor graph "recipe_generator" s
     = Ok (Some (if truthy v then "human_feedback_handler" else "recipe_finalizer")) /\
     (allergenes_check_condition s = Ok "human_feedback_handler" <-> truthy v = true) /\
     (allergenes_check_condition s = Ok "recipe_finalizer" <-> truthy v = false)) /\
  (forall (d : State) (w : World) (upd d' : State) (w' : World),
     recipe_generator (d, w) = (Ok upd, (d', w')) ->
     exists v : pyval, upd !! "allergenes_detected" = Some v).
Proof.
  split.
  - intros s v Hv.
    assert (Hc : allergenes_check_condition s
                 = Ok (if truthy v then "human_feedback_handler" else "recipe_finalizer"))
      by (unfold allergenes_check_condition, dict_get; rewrite Hv; reflexivity).
    split; [exact Hc|]. split; [rewrite successor_generator, Hv; reflexivity|].
    rewrite Hc. destruct (truthy v); split; split;
      first [reflexivity | discriminate | intros [= H]; discriminate H].
  - intros d w upd d' w' Hg.
    destruct (recipe_generator_ok_inv _ _ _ _ _ Hg) as (draft & check & piece & _ & ->).
    eexists. apply lookup_insert_eq.
Qed.

End Generate.

Lemma succeeded_inv {S A : Type} (x : Res A * S) :
  succeeded x = true -> exists (a : A) (s : S), x = (Ok a, s).
Proof. destruct x as [[a|e] s]; [eauto | discriminate]. Qed.

Lemma generator_success_flags_witness :
  exists upd : State,
    fst (recipe_generator (ext := Scenario.cookies)
           ({[ "recipe_request" := VStr "chocolate cookies" ]}, Scenario.w0)) = Ok upd /\
    upd !! "allergenes_detected" = Some (VBool true).
Proof.
  destruct (succeeded_inv
              (recipe_generator (ext := Scenario.cookies)
                 ({[ "recipe_request" := VStr "chocolate cookies" ]}, Scenario.w0)))
    as (upd & [d' w'] & E); [vm_compute; reflexivity|].
  exists upd. split; [rewrite E; reflexivity|].
  exact (proj1 (generator_success_flags _ _ _ _ _ E)).
Defined.

Lemma condition_picks_edge_witness :
  allergenes_check_condition {[ "allergenes_detected" := VBool false ]}
  = Ok "recipe_finalizer" /\
  allergenes_check_condition {[ "allergenes_detected" := VBool true ]}
  = Ok "human_feedback_handler" /\
  Pregel.successor (graph (ext := Scenario.cookies)) "recipe_generator"
    {[ "allergenes_detected" := VBool false ]}
  = Ok (Some "recipe_finalizer") /\
  Pregel.successor (graph (ext := Scenario.cookies)) "recipe_generator"
    {[ "allergenes_detected" := VStr EmptyString ]}
  = Ok (Some "recipe_finalizer").
Proof.
  pose proof (proj1 (condition_picks_edge (ext := Scenario.cookies))) as H.
  split; [exact (proj1 (H _ (VBool false) (lookup_singleton_eq _ _)))|].
  split; [exact (proj1 (H _ (VBool true) (lookup_singleton_eq _ _)))|].
  split; [exact (proj1 (proj2 (H _ (VBool false) (lookup_singleton_eq _ _))))|].
  exact (proj1 (proj2 (H _ (VStr EmptyString) (lookup_singleton_eq _ _)))).
Defined.

(** C1: a lemon cake request whose classifier answers "NO ALLERGENES".  Both
    requests to the client are answered, the answer holds no marker, and
    the submit raises [IndexError] after its first yield: the history never
    receives a recipe. *)
Theorem no_allergenes_submit_raises :
  fst Scenario.first_lemon = Err IndexError /\
  Str.contains "ALLERGENES FOUND" "NO ALLERGENES" = false /\
  w_calls (Scenario.world_of Scenario.first_lemon)
  = [generate_prompt (VStr "lemon cake"); analyze_prompt (VStr "DRAFT")] /\
  length (fst (snd Scenario.first_lemon)) = 1 /\
  Scenario.last_history Scenario.first_lemon
  = [(Some "lemon cake", VStr "Generating recipe...")] /\
  Scenario.last_state Scenario.first_lemon !! "final_recipe" = None.
Proof. repeat apply conj; vm_compute; reflexivity. Qed.

(** C3: [recipe_generator] on the lemon cake request.  Neither request to
    the client fails, yet the node raises, and with [IndexError]; the dict
    it was given already holds the draft. *)
Theorem generator_raises_though_requests_answered :
  completion (Externals := Scenario.lemon) 0 (generate_prompt (VStr "lemon cake"))
  = Some "DRAFT" /\
  completion (Externals := Scenario.lemon) 1 (analyze_prompt (VStr "DRAFT"))
  = Some "NO ALLERGENES" /\
  fst Scenario.generate_lemon = Err IndexError /\
  w_calls (snd (snd Scenario.generate_lemon))
  = [generate_prompt (VStr "lemon cake"); analyze_prompt (VStr "DRAFT")] /\
  fst (snd Scenario.generate_lemon) !! "recipe" = Some (VStr "DRAFT") /\
  fst (snd Scenario.generate_lemon) !! "allergenes_detected" = None.
Proof. repeat apply conj; vm_compute; reflexivity. Qed.

(** ** The nodes after generate *)

Section LaterNodes.

Context {ext : Externals}.

(** C4, as the code has it: [recipe_generator] writes
    [allergenes_detected]; [human_feedback_handler] then sets it to
    [False], changing no other key, sending no request and touching nothing
    else of the world; [recipe_finalizer] returns it as it found it. *)
Theorem flag_lifecycle (d : State) (w : World) :
  (forall (upd d' : State) (w' : World),
     recipe_generator (d, w) = (Ok upd, (d', w')) ->
     exists b : bool, upd !! "allergenes_detected" = Some (VBool b)) /\
  human_feedback_handler (d, w)
  = (Ok (<["allergenes_detected" := VBool false]> d),
     (<["allergenes_detected" := VBool false]> d, w)) /\
  (forall (upd d' : State) (w' : World),
     recipe_finalizer (d, w) = (Ok upd, (d', w')) ->
     upd !! "allergenes_detected" = d !! "allergenes_detected").
Proof.
  split; [|split].
  - intros upd d' w' Hg.
    destruct (recipe_generator_ok_inv _ _ _ _ _ Hg) as (draft & check & piece & _ & ->).
    eexists. apply lookup_insert_eq.
  - apply human_feedback_handler_eq.
  - intros upd d' w' Hf.
    destruct (recipe_finalizer_inv _ _ _ _ _ Hf) as (_ & _ & Hupd).
    destruct (Hupd upd eq_refl) as [fr ->].
    rewrite lookup_insert_ne by done. reflexivity.
Qed.

(** C7: [recipe_finalizer] on a state that holds a recipe.  With a
    [human_feedback] that is present and not empty it sends one request,
    whose prompt is "Modify this recipe according to dietary restrictions: "
    followed by the recipe, a newline, "Restrictions: " and the feedback:
    the recipe and the feedback both occur in it, and nothing else of the
    state does.  [final_recipe] is the answer; a failing request makes the
    node raise.  With [human_feedback] absent or empty it sends no request
    and [final_recipe] is the recipe. *)
Theorem finalizer_result (d : State) (w : World) (recipe : pyval) :
  d !! "recipe" = Some recipe ->
  (forall feedback : pyval,
     d !! "human_feedback" = Some feedback -> truthy feedback = true ->
     let prompt :=
       "Modify this recipe according to dietary restrictions: " +:+ format recipe
       +:+ Str.nl +:+ "Restrictions: " +:+ format feedback in
     Str.contains (format recipe) prompt = true /\
     Str.contains (format feedback) prompt = true /\
     match completion (length (w_calls w)) prompt with
     | Some response =>
         exists upd d' w',
           recipe_finalizer (d, w) = (Ok upd, (d', w')) /\
           upd = <["final_recipe" := VStr response]> d /\
           w_calls w' = w_calls w ++ [prompt]
     | None =>
         exists d' w',
           recipe_finalizer (d, w) = (Err OpenAIError, (d', w')) /\
           w_calls w' = w_calls w ++ [prompt]
     end) /\
  ((d !! "human_feedback" = None \/
    exists feedback, d !! "human_feedback" = Some feedback /\ truthy feedback = false) ->
   recipe_finalizer (d, w)
   = (Ok (<["final_recipe" := recipe]> d), (<["final_recipe" := recipe]> d, w))).
Proof.
  intros Hr. split.
  - intros feedback Hf Ht prompt.
    split; [apply contains_infix|].
    split; [do 4 apply contains_app_r; apply contains_self|].
    rewrite recipe_finalizer_eq, Hr, Hf, Ht. cbv zeta.
    change (modify_prompt recipe feedback) with prompt.
    destruct (completion (length (w_calls w)) prompt) as [response|].
    + eexists _, _, _. split; [reflexivity|]. split; reflexivity.
    + eexists _, _. split; reflexivity.
  - intros [Hf | (feedback & Hf & Ht)]; rewrite recipe_finalizer_eq, Hr, Hf;
      [|rewrite Ht]; reflexivity.
Qed.

End LaterNodes.

Lemma flag_lifecycle_witness :
  exists upd : State,
    fst (recipe_finalizer (ext := Scenario.cookies)
           (<["recipe" := VStr "DRAFT"]> {[ "allergenes_detected" := VBool false ]},
            Scenario.w0)) = Ok upd /\
    upd !! "allergenes_detected" = Some (VBool false).
Proof.
  destruct (succeeded_inv
              (recipe_finalizer (ext := Scenario.cookies)
                 (<["recipe" := VStr "DRAFT"]> {[ "allergenes_detected" := VBool false ]},
                  Scenario.w0)))
    as (upd & [d' w'] & E); [vm_compute; reflexivity|].
  exists upd. split; [rewrite E; reflexivity|].
  rewrite (proj2 (proj2 (flag_lifecycle (ext := Scenario.cookies) _ _)) _ _ _ E).
  vm_compute; reflexivity.
Defined.

(** C4, as the spec has it, fails on a state whose flag is set:
    [human_feedback_handler] returns it with the flag cleared. *)
Lemma handler_clears_flag :
  exists (upd d' : State) (w' : World),
    human_feedback_handler ({[ "allergenes_detected" := VBool true ]}, Scenario.w0)
    = (Ok upd, (d', w')) /\
    ({[ "allergenes_detected" := VBool true ]} : State) !! "allergenes_detected"
    = Some (VBool true) /\
    upd !! "allergenes_detected" = Some (VBool false).
Proof.
  eexists _, _, _. split; [apply human_feedback_handler_eq|].
  split; [apply lookup_singleton_eq | apply lookup_insert_eq].
Qed.

Lemma finalizer_result_witness :
  let d : State :=
    <["human_feedback" := VStr "no dairy please"]> {[ "recipe" := VStr "DRAFT" ]} in
  d !! "recipe" = Some (VStr "DRAFT") /\
  Str.contains "DRAFT"
    ("Modify this recipe according to dietary restrictions: DRAFT" +:+ Str.nl
     +:+ "Restrictions: no dairy please") = true /\
  Str.contains "no dairy please"
    ("Modify this recipe according to dietary restrictions: DRAFT" +:+ Str.nl
     +:+ "Restrictions: no dairy please") = true /\
  exists upd d' w',
    recipe_finalizer (ext := Scenario.cookies) (d, mkWorld ["a"; "b"] [] ∅ 0)
    = (Ok upd, (d', w')) /\
    upd = <["final_recipe" := VStr "REVISED"]> d /\
    w_calls w' = ["a"; "b"]
                 ++ ["Modify this recipe according to dietary restrictions: DRAFT"
                     +:+ Str.nl +:+ "Restrictions: no dairy please"].
Proof.
  intros d.
  assert (Hr : d !! "recipe" = Some (VStr "DRAFT")) by (vm_compute; reflexivity).
  split; [exact Hr|].
  exact (proj1 (finalizer_result (ext := Scenario.cookies) d (mkWorld ["a"; "b"] [] ∅ 0)
                  (VStr "DRAFT") Hr)
           (VStr "no dairy please") ltac:(vm_compute; reflexivity) eq_refl).
Defined.

(** ** Sessions *)

Lemma question_contains (shown : string) :
  Str.contains shown (question shown) = true.
Proof.
  change (question shown)
    with (("Are you allergic to any of the following ingredients:" +:+ Str.nl)
          +:+ shown +:+ (Str.nl +:+ "If so, please specify which ones.")).
  apply contains_infix.
Qed.

Section Sessions.

Context {ext : Externals}.

(** C5, as the code has it: a submit on a completed session (its checkpoint
    exists, the thread is at [END], the flag is false) is no protocol error.
    It returns normally and starts no node. *)
Theorem completed_submit_returns (message : string) (h : list Entry) (st : State)
    (u : string) (w : World) :
  Completed h st u w ->
  fst (process_request message h (Some st) (Some u) ([], w)) = Ok tt /\
  w_ran (snd (snd (process_request message h (Some st) (Some u) ([], w)))) = w_ran w.
Proof. intros Hc. rewrite (submit_completed message _ _ _ _ Hc). split; reflexivity. Qed.

(** C6: once a session is completed, a further submit, whatever its
    message, yields the history and the state it was given and nothing
    else, and leaves the world as it was: no request is sent, no node is
    started, no checkpoint is written.  The history it yields ends with the
    final recipe that the state stores, and the session stays completed, so
    the same holds of every later submit. *)
Theorem completed_session_replays (message : string) (h : list Entry) (st : State)
    (u : string) (w : World) :
  (forall n, uuid4 n <> EmptyString) ->
  Session h (Some st) (Some u) w ->
  (exists cp, w_memory w !! u = Some cp /\ cp_next cp = None) ->
  process_request message h (Some st) (Some u) ([], w) = (Ok tt, ([(h, st, u)], w)) /\
  (exists r, st !! "final_recipe" = Some r /\
             last h = Some (None, VStr (final_message r))) /\
  Session h (Some st) (Some u) w.
Proof.
  intros Huuid Hs (cp & Hm & Hn).
  pose proof (session_invariant _ _ _ _ Huuid Hs) as [Hw | Hc]; cbn beta iota in *.
  - destruct Hw as (_ & _ & cp' & Hm' & Hn' & _). congruence.
  - split; [exact (submit_completed message _ _ _ _ Hc)|].
    split; [exact (proj1 (proj2 (proj2 (proj2 Hc)))) | exact Hs].
Qed.

(** C8: a submit on a session that waits before [human_feedback_handler]
    starts exactly that node and then [recipe_finalizer], whatever the
    feedback and whatever the client answers; [recipe_generator] is not
    started again. *)
Theorem resume_runs_handler_then_finalizer (feedback : string) (h : list Entry)
    (st : State) (u : string) (w : World) (r : Res unit) (ys : list Yield) (w' : World) :
  (forall n, uuid4 n <> EmptyString) ->
  Session h (Some st) (Some u) w ->
  (exists cp, w_memory w !! u = Some cp /\ cp_next cp = Some "human_feedback_handler") ->
  process_request feedback h (Some st) (Some u) ([], w) = (r, (ys, w')) ->
  w_ran w' = w_ran w ++ ["human_feedback_handler"; "recipe_finalizer"].
Proof.
  intros Huuid Hs (cp & Hm & Hn) Hrun.
  pose proof (session_invariant _ _ _ _ Huuid Hs) as [Hw | Hc]; cbn beta iota in *.
  - exact (proj1 (submit_waiting _ _ _ _ _ _ _ _ Hw Hrun)).
  - destruct Hc as (_ & _ & _ & _ & cp' & Hm' & Hn'). congruence.
Qed.

(** A first submit that returns has stopped before
    [human_feedback_handler]; the last row of the history it yields is the
    question built from [allergenes] without its first two characters, and
    that shortened text occurs in the question. *)
Theorem first_submit_asks (message : string) (h : list Entry) (st0 : option State)
    (uid : option string) (w : World) (ys : list Yield) (w' : World) :
  st0 = None \/ st0 = Some ∅ ->
  (forall n, uuid4 n <> EmptyString) ->
  process_request message h st0 uid ([], w) = (Ok tt, (ys, w')) ->
  exists (st' : State) (u detail : string),
    last ys = Some ([(Some message, VStr "Generating recipe...");
                     (None, VStr (question (Str.drop 2 detail)))], st', u) /\
    st' !! "allergenes" = Some (VStr detail) /\
    Str.contains (Str.drop 2 detail) (question (Str.drop 2 detail)) = true /\
    Waiting st' u w'.
Proof.
  intros Hst Huuid Hrun.
  destruct (submit_new _ _ _ _ _ _ _ Hst Huuid Hrun) as (st' & u & detail & Hl & Ha & Hw & _).
  exists st', u, detail. repeat split; try assumption; try apply Hw.
  apply question_contains.
Qed.

End Sessions.

(** ** The chocolate cookies session, submit by submit *)

Lemma run_ok (r : Scenario.Run) :
  succeeded r = true -> r = (Ok tt, (fst (snd r), Scenario.world_of r)).
Proof. destruct r as [[[]|e] [ys w]]; [reflexivity | discriminate]. Qed.

Lemma cookies_uuid : forall n, uuid4 (Externals := Scenario.cookies) n <> EmptyString.
Proof. intros n. discriminate. Qed.

Lemma cookies_first_run :
  process_request (ext := Scenario.cookies) "chocolate cookies" [] None None
    ([], Scenario.w0)
  = (Ok tt, (fst (snd Scenario.first_cookies), Scenario.world_of Scenario.first_cookies)).
Proof. apply (run_ok Scenario.first_cookies). vm_compute; reflexivity. Qed.

Lemma cookies_second_run :
  process_request (ext := Scenario.cookies) "no dairy please"
    (Scenario.last_history Scenario.first_cookies)
    (Some (Scenario.last_state Scenario.first_cookies))
    (Some (Scenario.last_user Scenario.first_cookies))
    ([], Scenario.world_of Scenario.first_cookies)
  = (Ok tt, (fst (snd Scenario.second_cookies), Scenario.world_of Scenario.second_cookies)).
Proof. apply (run_ok Scenario.second_cookies). vm_compute; reflexivity. Qed.

Lemma cookies_waiting :
  Session (ext := Scenario.cookies)
    (Scenario.last_history Scenario.first_cookies)
    (Some (Scenario.last_state Scenario.first_cookies))
    (Some (Scenario.last_user Scenario.first_cookies))
    (Scenario.world_of Scenario.first_cookies) /\
  Waiting (Scenario.last_state Scenario.first_cookies)
    (Scenario.last_user Scenario.first_cookies)
    (Scenario.world_of Scenario.first_cookies).
Proof.
  pose proof cookies_first_run as E.
  destruct (submit_new _ _ _ _ _ _ _ (or_introl eq_refl) cookies_uuid E)
    as (st' & u & detail & Hl & _ & Hw & _).
  unfold Scenario.last_history, Scenario.last_state, Scenario.last_user.
  rewrite Hl. split; [|exact Hw].
  exact (Session_submit _ _ _ _ _ _ _ _ _ _ (Session_new _ _) E Hl).
Qed.

Lemma cookies_completed :
  Session (ext := Scenario.cookies)
    (Scenario.last_history Scenario.second_cookies)
    (Some (Scenario.last_state Scenario.second_cookies))
    (Some (Scenario.last_user Scenario.second_cookies))
    (Scenario.world_of Scenario.second_cookies) /\
  Completed (Scenario.last_history Scenario.second_cookies)
    (Scenario.last_state Scenario.second_cookies)
    (Scenario.last_user Scenario.second_cookies)
    (Scenario.world_of Scenario.second_cookies).
Proof.
  destruct cookies_waiting as [Hs Hw]. pose proof cookies_second_run as E.
  destruct (submit_waiting _ _ _ _ _ _ _ _ Hw E) as [_ Hdone].
  destruct (Hdone eq_refl) as (h' & st' & Hl & Hc).
  pose proof (Session_submit _ _ _ _ _ _ _ _ _ _ Hs E Hl) as Hs'.
  unfold Scenario.last_history at 1, Scenario.last_state at 1, Scenario.last_user at 1.
  unfold Scenario.last_history at 1, Scenario.last_state at 1, Scenario.last_user at 1.
  rewrite Hl. split; assumption.
Qed.

(** C5, as the spec has it, fails on the completed cookies session: its
    checkpoint exists, the thread is at [END] and the flag is false, yet the
    third submit returns normally, and it starts no node. *)
Lemma repeat_submit_is_not_an_error :
  fst Scenario.second_cookies = Ok tt /\
  cp_next <$> (w_memory (Scenario.world_of Scenario.second_cookies)
                 !! Scenario.last_user Scenario.second_cookies) = Some None /\
  Scenario.last_state Scenario.second_cookies !! "allergenes_detected"
  = Some (VBool false) /\
  fst Scenario.third_cookies = Ok tt /\
  w_ran (Scenario.world_of Scenario.third_cookies)
  = w_ran (Scenario.world_of Scenario.second_cookies).
Proof. repeat apply conj; vm_compute; reflexivity. Qed.

Lemma completed_submit_returns_witness :
  Completed (Scenario.last_history Scenario.second_cookies)
    (Scenario.last_state Scenario.second_cookies)
    (Scenario.last_user Scenario.second_cookies)
    (Scenario.world_of Scenario.second_cookies) /\
  fst Scenario.third_cookies = Ok tt.
Proof.
  split; [exact (proj2 cookies_completed)|].
  exact (proj1 (completed_submit_returns (ext := Scenario.cookies) "anything" _ _ _ _
                  (proj2 cookies_completed))).
Defined.

Lemma completed_session_replays_witness :
  Scenario.third_cookies
  = (Ok tt, ([(Scenario.last_history Scenario.second_cookies,
               Scenario.last_state Scenario.second_cookies,
               Scenario.last_user Scenario.second_cookies)],
             Scenario.world_of Scenario.second_cookies)).
Proof.
  destruct cookies_completed as [Hs (_ & _ & _ & _ & Hcp)].
  exact (proj1 (completed_session_replays (ext := Scenario.cookies) "anything" _ _ _ _
                  cookies_uuid Hs Hcp)).
Defined.

Lemma resume_runs_handler_then_finalizer_witness :
  w_ran (Scenario.world_of Scenario.second_cookies)
  = w_ran (Scenario.world_of Scenario.first_cookies)
    ++ ["human_feedback_handler"; "recipe_finalizer"].
Proof.
  destruct cookies_waiting as [Hs (_ & _ & cp & Hm & Hn & _)].
  exact (resume_runs_handler_then_finalizer (ext := Scenario.cookies) _ _ _ _ _ _ _ _
           cookies_uuid Hs (ex_intro _ cp (conj Hm Hn)) cookies_second_run).
Defined.

(** C9: the classifier flags dairy and eggs and writes a blank after the
    marker, as the prompt of [recipe_generator] asks for.  The submit
    pauses, [allergenes] is "dairy, eggs", and the question shows it
    without its first two characters: "iry, eggs".  The text "dairy, eggs"
    does not occur in the question. *)
Lemma question_misses_detail :
  fst Scenario.first_blank = Ok tt /\
  Scenario.last_state Scenario.first_blank !! "allergenes" = Some (VStr "dairy, eggs") /\
  Scenario.last_state Scenario.first_blank !! "allergenes_detected" = Some (VBool true) /\
  Scenario.last_reply Scenario.first_blank = question "iry, eggs" /\
  Str.contains "dairy, eggs" (Scenario.last_reply Scenario.first_blank) = false.
Proof. repeat apply conj; vm_compute; reflexivity. Qed.

Lemma first_submit_asks_witness :
  (exists (st' : State) (u detail : string),
     last (fst (snd Scenario.first_cookies))
     = Some ([(Some "chocolate cookies", VStr "Generating recipe...");
              (None, VStr (question (Str.drop 2 detail)))], st', u) /\
     st' !! "allergenes" = Some (VStr detail) /\
     Str.contains (Str.drop 2 detail) (question (Str.drop 2 detail)) = true /\
     Waiting st' u (Scenario.world_of Scenario.first_cookies)) /\
  Scenario.last_state Scenario.first_cookies !! "allergenes" = Some (VStr ": dairy, eggs") /\
  Str.contains "dairy, eggs" (Scenario.last_reply Scenario.first_cookies) = true.
Proof.
  split.
  - exact (first_submit_asks (ext := Scenario.cookies) _ _ _ _ _ _ _
             (or_introl eq_refl) cookies_uuid cookies_first_run).
  - split; vm_compute; reflexivity.
Defined.

(** ** Strings, on examples *)

Example split_marker_colon :
  Str.split "ALLERGENES FOUND" "ALLERGENES FOUND: dairy, eggs" = [""; ": dairy, eggs"].
Proof. reflexivity. Qed.

Example split_no_marker :
  Str.split "ALLERGENES FOUND" "NO ALLERGENES" = ["NO ALLERGENES"].
Proof. reflexivity. Qed.

Example split_repeated : Str.split "ab" "xabyabab" = ["x"; "y"; ""; ""].
Proof. reflexivity. Qed.

Example strip_both_ends : Str.strip ("  a b " +:+ Str.nl) = "a b".
Proof. reflexivity. Qed.

Example question_colon : Str.drop 2 (Str.strip ": dairy, eggs") = "dairy, eggs".
Proof. reflexivity. Qed.

(** * Further properties of the nodes *)

Section NodeEdges.

Context {ext : Externals}.

(** [recipe_generator] raises [KeyError] exactly when the state has no
    [recipe_request]; it then sends no request and leaves the dict and the
    world as they were. *)
Theorem generator_missing_request (d : State) (w : World) :
  (d !! "recipe_request" = None ->
   recipe_generator (d, w) = (Err (KeyError "recipe_request"), (d, w))) /\
  (forall (k : string) (d' : State) (w' : World),
     recipe_generator (d, w) = (Err (KeyError k), (d', w')) ->
     d !! "recipe_request" = None).
Proof.
  split.
  - intros H. rewrite recipe_generator_eq, H. reflexivity.
  - intros k d' w'. rewrite recipe_generator_eq.
    destruct (d !! "recipe_request") as [request|]; [|reflexivity].
    destruct (completion _ (generate_prompt request)) as [draft|]; [|discriminate].
    cbv zeta.
    destruct (completion _ (analyze_prompt (VStr draft))) as [check|]; [|discriminate].
    destruct (Str.split "ALLERGENES FOUND" check !! 1); discriminate.
Qed.

(** A failing run of [recipe_generator] never writes [allergenes] or
    [allergenes_detected].  Either the dict is untouched (no request, or
    one request that failed), or both requests were sent and the dict
    differs from the one given by [recipe] alone, which holds the draft. *)
Theorem generator_failure_effects (d : State) (w : World) (e : exn) (d' : State)
    (w' : World) :
  recipe_generator (d, w) = (Err e, (d', w')) ->
  (d' = d /\ w' = w /\ e = KeyError "recipe_request") \/
  (exists request,
     d !! "recipe_request" = Some request /\ d' = d /\ e = OpenAIError /\
     w_calls w' = w_calls w ++ [generate_prompt request]) \/
  (exists request draft,
     d !! "recipe_request" = Some request /\
     d' = <["recipe" := VStr draft]> d /\ (e = OpenAIError \/ e = IndexError) /\
     w_calls w' = w_calls w ++ [generate_prompt request; analyze_prompt (VStr draft)]).
Proof.
  rewrite recipe_generator_eq.
  destruct (d !! "recipe_request") as [request|]; [|intros [= <- <- <-]; auto].
  destruct (completion _ (generate_prompt request)) as [draft|].
  2: { intros [= <- <- <-]. right; left. exists request. auto. }
  cbv zeta.
  destruct (completion _ (analyze_prompt (VStr draft))) as [check|].
  2: { intros [= <- <- <-]. right; right. exists request, draft.
       repeat apply conj; auto. cbn [w_calls set_calls]. rewrite <- app_assoc. reflexivity. }
  destruct (Str.split "ALLERGENES FOUND" check !! 1); [discriminate|].
  intros [= <- <- <-]. right; right. exists request, draft.
  repeat apply conj; auto. cbn [w_calls set_calls]. rewrite <- app_assoc. reflexivity.
Qed.

(** A run of [recipe_generator] that returns sent exactly two requests, the
    second about the answer to the first; it returns the dict it was
    given, in which [recipe] is that answer and every key other than
    [recipe], [allergenes] and [allergenes_detected] is as before. *)
Theorem generator_success_effects (d : State) (w : World) (upd d' : State) (w' : World) :
  recipe_generator (d, w) = (Ok upd, (d', w')) ->
  d' = upd /\
  (exists request draft,
     d !! "recipe_request" = Some request /\
     completion (length (w_calls w)) (generate_prompt request) = Some draft /\
     upd !! "recipe" = Some (VStr draft) /\
     w_calls w' = w_calls w ++ [generate_prompt request; analyze_prompt (VStr draft)]) /\
  (forall k : string,
     k <> "recipe" -> k <> "allergenes" -> k <> "allergenes_detected" ->
     upd !! k = d !! k).
Proof.
  rewrite recipe_generator_eq.
  destruct (d !! "recipe_request") as [request|]; [|discriminate].
  destruct (completion _ (generate_prompt request)) as [draft|] eqn:H1; [|discriminate].
  cbv zeta.
  destruct (completion _ (analyze_prompt (VStr draft))) as [check|]; [|discriminate].
  destruct (Str.split "ALLERGENES FOUND" check !! 1) as [piece|]; [|discriminate].
  intros [= <- <- <-]. split; [reflexivity|]. split.
  - exists request, draft. repeat apply conj; auto.
    + rewrite !lookup_insert_ne by done. apply lookup_insert_eq.
    + cbn [w_calls set_calls]. rewrite <- app_assoc. reflexivity.
  - intros k H1' H2 H3. rewrite !lookup_insert_ne by congruence. reflexivity.
Qed.

(** The [allergenes] text stored by [recipe_generator] is stripped:
    stripping it again changes nothing. *)
Theorem generator_allergenes_stripped (d : State) (w : World) (upd d' : State)
    (w' : World) :
  recipe_generator (d, w) = (Ok upd, (d', w')) ->
  exists a : string, upd !! "allergenes" = Some (VStr a) /\ Str.strip a = a.
Proof.
  intros Hg.
  destruct (recipe_generator_ok_inv _ _ _ _ _ Hg) as (draft & check & piece & _ & ->).
  exists (Str.strip piece). split; [|apply strip_strip].
  rewrite lookup_insert_ne by done. apply lookup_insert_eq.
Qed.

(** The [allergenes] text stored by [recipe_generator] never holds the
    marker "ALLERGENES FOUND" itself. *)
Theorem generator_allergenes_without_marker (d : State) (w : World) (upd d' : State)
    (w' : World) :
  recipe_generator (d, w) = (Ok upd, (d', w')) ->
  exists a : string,
    upd !! "allergenes" = Some (VStr a) /\ Str.contains "ALLERGENES FOUND" a = false.
Proof.
  intros Hg.
  destruct (recipe_generator_ok_inv _ _ _ _ _ Hg) as (draft & check & piece & Hp & ->).
  exists (Str.strip piece). split.
  - rewrite lookup_insert_ne by done. apply lookup_insert_eq.
  - destruct (Str.contains "ALLERGENES FOUND" (Str.strip piece)) eqn:Hc; [|reflexivity].
    apply contains_strip in Hc.
    assert (Hsep : "ALLERGENES FOUND" <> EmptyString) by discriminate.
    rewrite (split_second_clean _ _ _ Hsep Hp) in Hc. discriminate.
Qed.

(** [recipe_finalizer] raises [KeyError] exactly when the state has no
    [recipe], whatever the feedback; it then sends no request and leaves
    the dict and the world as they were. *)
Theorem finalizer_missing_recipe (d : State) (w : World) :
  (d !! "recipe" = None ->
   recipe_finalizer (d, w) = (Err (KeyError "recipe"), (d, w))) /\
  (forall (k : string) (d' : State) (w' : World),
     recipe_finalizer (d, w) = (Err (KeyError k), (d', w')) ->
     d !! "recipe" = None).
Proof.
  split.
  - intros H. rewrite recipe_finalizer_eq, H. reflexivity.
  - intros k d' w'. rewrite recipe_finalizer_eq.
    destruct (d !! "recipe") as [recipe|]; [|reflexivity].
    destruct (d !! "human_feedback") as [feedback|]; [|discriminate].
    destruct (truthy feedback); [|discriminate].
    destruct (completion _ (modify_prompt recipe feedback)); discriminate.
Qed.

(** Whatever [recipe_finalizer] does, the dict it leaves differs from the
    one given at most by [final_recipe], it sends at most one request, and a
    run that raises leaves the dict untouched. *)
Theorem finalizer_effects (d : State) (w : World) (r : Res State) (d' : State)
    (w' : World) :
  recipe_finalizer (d, w) = (r, (d', w')) ->
  (forall k : string, k <> "final_recipe" -> d' !! k = d !! k) /\
  (w_calls w' = w_calls w \/ exists p, w_calls w' = w_calls w ++ [p]) /\
  (forall e, r = Err e -> d' = d) /\
  (forall upd, r = Ok upd -> d' = upd /\ is_Some (upd !! "final_recipe")).
Proof.
  rewrite recipe_finalizer_eq.
  destruct (d !! "recipe") as [recipe|].
  2: { intros [= <- <- <-]. repeat apply conj; auto; discriminate. }
  assert (Hin : forall (v : pyval) (k : string),
            k <> "final_recipe" -> (<["final_recipe" := v]> d : State) !! k = d !! k)
    by (intros v k Hk; rewrite lookup_insert_ne by congruence; reflexivity).
  assert (Hfr : forall v : pyval, is_Some ((<["final_recipe" := v]> d : State) !! "final_recipe"))
    by (intros v; rewrite lookup_insert_eq; eauto).
  destruct (d !! "human_feedback") as [feedback|];
    [destruct (truthy feedback);
     [destruct (completion _ (modify_prompt recipe feedback)) as [response|]|]|];
    intros [= <- <- <-]; repeat apply conj; eauto; try discriminate;
    intros upd [= <-]; auto.
Qed.

End NodeEdges.

(** * Further properties of the callback *)

Section AnyCall.

Context {ext : Externals}.

Lemma node_lookup (n : string) :
  assoc n (nodes (builder graph)) =
  if String.eqb n "recipe_generator" then Some recipe_generator
  else if String.eqb n "human_feedback_handler" then Some human_feedback_handler
  else if String.eqb n "recipe_finalizer" then Some recipe_finalizer
  else None.
Proof. reflexivity. Qed.

Lemma recipe_generator_exn (d : State) (w : World) (e : exn) (d' : State) (w' : World) :
  recipe_generator (d, w) = (Err e, (d', w')) -> e <> GraphRecursionError.
Proof.
  rewrite recipe_generator_eq.
  destruct (d !! "recipe_request") as [request|]; [|intros [= <- _ _]; discriminate].
  destruct (completion _ (generate_prompt request)) as [draft|];
    [|intros [= <- _ _]; discriminate].
  cbv zeta.
  destruct (completion _ (analyze_prompt (VStr draft))) as [check|];
    [|intros [= <- _ _]; discriminate].
  destruct (Str.split "ALLERGENES FOUND" check !! 1);
    [discriminate | intros [= <- _ _]; discriminate].
Qed.

Lemma recipe_finalizer_exn (d : State) (w : World) (e : exn) (d' : State) (w' : World) :
  recipe_finalizer (d, w) = (Err e, (d', w')) -> e <> GraphRecursionError.
Proof.
  rewrite recipe_finalizer_eq.
  destruct (d !! "recipe") as [recipe|]; [|intros [= <- _ _]; discriminate].
  destruct (d !! "human_feedback") as [feedback|]; [|discriminate].
  destruct (truthy feedback); [|discriminate].
  destruct (completion _ (modify_prompt recipe feedback));
    [discriminate | intros [= <- _ _]; discriminate].
Qed.

Lemma on_event_exn (ev : Event) (h : list Entry) (e : exn) :
  on_event ev h = Err e -> e <> GraphRecursionError.
Proof.
  destruct ev as [name upd|]; [|discriminate].
  unfold on_event, dict_get, slice_from.
  destruct (String.eqb name "recipe_generator").
  - destruct (upd !! "allergenes_detected") as [v|]; [|intros [= <-]; discriminate].
    destruct (truthy v).
    + destruct (upd !! "allergenes") as [[a|b]|]; try discriminate;
        intros [= <-]; discriminate.
    + destruct (upd !! "recipe"); [discriminate | intros [= <-]; discriminate].
  - destruct (String.eqb name "recipe_finalizer"); [|discriminate].
    destruct (upd !! "final_recipe"); [discriminate | intros [= <-]; discriminate].
Qed.

Lemma other_thread_saved (tid t : string) (cp : Checkpoint) (w : World) :
  t <> tid ->
  w_memory (set_memory (fun m => <[tid := cp]> m) w) !! t = w_memory w !! t.
Proof. intros H. rewrite memory_set. apply lookup_insert_ne. congruence. Qed.

(** One step of the graph, whatever node is pending. *)
Lemma execute_any (tid : string) (cp : Checkpoint) (n : string) (w : World)
    (r : Res Event) (w' : World) :
  Pregel.execute graph tid cp n w = (r, w') ->
  w_uuids w' = w_uuids w /\
  (forall t, t <> tid -> w_memory w' !! t = w_memory w !! t) /\
  match r with
  | Ok _ => exists cp', w_memory w' !! tid = Some cp' /\
                        steps_left (cp_next cp') < steps_left (Some n)
  | Err e => e <> GraphRecursionError
  end.
Proof.
  pose proof (node_lookup n) as Hn. cbn [steps_left].
  destruct (String.eqb n "recipe_generator") eqn:E1.
  { rewrite (execute_eq _ _ _ _ _ Hn).
    destruct (recipe_generator _) as [[upd|e] [d1 w1]] eqn:Hg;
      pose proof (recipe_generator_world _ _ _ _ _ Hg) as (_ & Hm & Hu).
    - apply String.eqb_eq in E1. subst n. rewrite successor_generator.
      destruct ((upd ∪ cp_values cp) !! "allergenes_detected") as [v|];
        intros [= <- <-].
      + split; [exact Hu|]. split.
        * intros t Ht. rewrite other_thread_saved by exact Ht. rewrite Hm. reflexivity.
        * eexists. split; [rewrite memory_set; apply lookup_insert_eq|].
          cbn [cp_next steps_left]. destruct (truthy v); cbn; lia.
      + split; [exact Hu|]. split; [intros t _; rewrite Hm; reflexivity | discriminate].
    - intros [= <- <-]. split; [exact Hu|].
      split; [intros t _; rewrite Hm; reflexivity|].
      exact (recipe_generator_exn _ _ _ _ _ Hg). }
  destruct (String.eqb n "human_feedback_handler") eqn:E2.
  { rewrite (execute_eq _ _ _ _ _ Hn), human_feedback_handler_eq.
    apply String.eqb_eq in E2. subst n. rewrite successor_handler.
    intros [= <- <-]. split; [reflexivity|]. split.
    - intros t Ht. rewrite other_thread_saved by exact Ht. reflexivity.
    - eexists. split; [rewrite memory_set; apply lookup_insert_eq|]. cbn. lia. }
  destruct (String.eqb n "recipe_finalizer") eqn:E3.
  { rewrite (execute_eq _ _ _ _ _ Hn).
    apply String.eqb_eq in E3. subst n.
    destruct (recipe_finalizer _) as [[upd|e] [d1 w1]] eqn:Hf.
    - pose proof (recipe_finalizer_inv _ _ _ _ _ Hf) as (_ & Hm & _).
      assert (Hu : w_uuids w1 = w_uuids w).
      { rewrite recipe_finalizer_eq in Hf.
        destruct (_ !! "recipe"); [|discriminate].
        destruct (_ !! "human_feedback") as [fb|];
          [destruct (truthy fb); [destruct (completion _ _)|]|];
          injection Hf as _ _ <-; reflexivity. }
      rewrite successor_finalizer. intros [= <- <-].
      split; [exact Hu|]. split.
      + intros t Ht. rewrite other_thread_saved by exact Ht. rewrite Hm. reflexivity.
      + eexists. split; [rewrite memory_set; apply lookup_insert_eq|]. cbn. lia.
    - pose proof (recipe_finalizer_inv _ _ _ _ _ Hf) as (_ & Hm & _).
      assert (Hu : w_uuids w1 = w_uuids w).
      { rewrite recipe_finalizer_eq in Hf.
        destruct (_ !! "recipe"); [|injection Hf as _ _ <-; reflexivity].
        destruct (_ !! "human_feedback") as [fb|];
          [destruct (truthy fb); [destruct (completion _ _)|]|];
          injection Hf as _ _ <-; reflexivity. }
      intros [= <- <-]. split; [exact Hu|].
      split; [intros t _; rewrite Hm; reflexivity|].
      exact (recipe_finalizer_exn _ _ _ _ _ Hf). }
  unfold Pregel.execute, Pregel.run_node. cbv [bind]. rewrite Hn.
  intros [= <- <-]. split; [reflexivity|]. split; [reflexivity | discriminate].
Qed.

Lemma deliver_any (tid : string) (events : list Event) (h : list Entry) (s : State)
    (ys : list Yield) (w : World) (r : Res (list Entry * State)) (ys' : list Yield)
    (w' : World) :
  Pregel.deliver (loop_body tid) events (h, s) (ys, w) = (r, (ys', w')) ->
  w' = w /\
  (exists more, ys' = ys ++ more /\ Forall (fun y : Yield => snd y = tid) more) /\
  (forall e, r = Err e -> e <> GraphRecursionError).
Proof.
  revert h s ys. induction events as [|ev events IH]; intros h s ys.
  - intros [= <- <- <-]. split; [reflexivity|].
    split; [exists []; rewrite app_nil_r; auto | discriminate].
  - cbn [Pregel.deliver]. cbv [bind]. rewrite loop_body_eq.
    destruct (on_event ev h) as [h1|e1] eqn:Hev.
    + intros Hd. destruct (IH _ _ _ Hd) as (-> & (more & -> & Hall) & He).
      split; [reflexivity|]. split; [|exact He].
      eexists (_ :: more). rewrite <- app_assoc. split; [reflexivity|].
      constructor; [reflexivity | exact Hall].
    + intros [= <- <- <-]. split; [reflexivity|].
      split; [exists []; rewrite app_nil_r; auto|].
      intros e [= <-]. exact (on_event_exn _ _ _ Hev).
Qed.

Lemma loop_zero {X A : Type} (tid : string) (body : Event -> A -> M (X * World) A)
    (resuming : bool) (pending : list Event) (acc : A) (x : X) (w : World) :
  Pregel.loop graph tid body 0 resuming pending acc (x, w) =
  match w_memory w !! tid with
  | None => Pregel.deliver body pending acc (x, w)
  | Some cp =>
      match cp_next cp with
      | None => Pregel.deliver body pending acc (x, w)
      | Some n =>
          if existsb (String.eqb n) (interrupt_before graph) && negb resuming
          then Pregel.deliver body (pending ++ [Interrupt]) acc (x, w)
          else
            match Pregel.deliver body pending acc (x, w) with
            | (Ok _, xw) => (Err GraphRecursionError, xw)
            | (Err e, xw) => (Err e, xw)
            end
      end
  end.
Proof.
  cbn [Pregel.loop]. cbv [bind lift get_world raise fst snd].
  destruct (w_memory w !! tid) as [cp|]; [|reflexivity].
  destruct (cp_next cp) as [n|]; [|reflexivity].
  destruct (existsb (String.eqb n) (interrupt_before graph) && negb resuming);
    [reflexivity|].
  destruct (Pregel.deliver body pending acc (x, w)) as [[acc'|e] xw]; reflexivity.
Qed.

Lemma steps_left_pos (n : string) : 1 <= steps_left (Some n).
Proof.
  cbn [steps_left]. destruct (String.eqb n "recipe_generator"); [lia|].
  destruct (String.eqb n "human_feedback_handler"); lia.
Qed.

(** The loop, from any checkpoint: it touches no other thread, draws no
    uuid, only adds yields for its own thread, and does not run out of
    steps when given as many as the pending node needs. *)
Lemma loop_any (tid : string) (fuel : nat) :
  forall (resuming : bool) (pending : list Event) (h : list Entry) (s : State)
         (ys : list Yield) (w : World) (r : Res (list Entry * State))
         (ys' : list Yield) (w' : World),
  Pregel.loop graph tid (loop_body tid) fuel resuming pending (h, s) (ys, w)
  = (r, (ys', w')) ->
  w_uuids w' = w_uuids w /\
  (forall t, t <> tid -> w_memory w' !! t = w_memory w !! t) /\
  (exists more, ys' = ys ++ more /\ Forall (fun y : Yield => snd y = tid) more) /\
  (steps_left (w_memory w !! tid ≫= cp_next) <= fuel ->
   forall e, r = Err e -> e <> GraphRecursionError).
Proof.
  induction fuel as [|fuel IH]; intros resuming pending h s ys w r ys' w'.
  - rewrite loop_zero.
    destruct (w_memory w !! tid) as [cp|] eqn:Hm; cbn [mbind option_bind].
    2: { intros Hd. destruct (deliver_any _ _ _ _ _ _ _ _ _ Hd) as (-> & Hy & He). auto. }
    destruct (cp_next cp) as [n|] eqn:Hn.
    2: { intros Hd. destruct (deliver_any _ _ _ _ _ _ _ _ _ Hd) as (-> & Hy & He). auto. }
    destruct (existsb (String.eqb n) (interrupt_before graph) && negb resuming).
    { intros Hd. destruct (deliver_any _ _ _ _ _ _ _ _ _ Hd) as (-> & Hy & He). auto. }
    destruct (Pregel.deliver _ _ _ _) as [[acc'|e0] [ys1 w1]] eqn:Hd;
      destruct (deliver_any _ _ _ _ _ _ _ _ _ Hd) as (-> & Hy & He);
      intros [= <- <- <-]; repeat apply conj; auto;
      intros Hle; pose proof (steps_left_pos n); lia.
  - rewrite loop_unfold.
    destruct (w_memory w !! tid) as [cp|] eqn:Hm; cbn [mbind option_bind].
    2: { intros Hd. destruct (deliver_any _ _ _ _ _ _ _ _ _ Hd) as (-> & Hy & He). auto. }
    destruct (cp_next cp) as [n|] eqn:Hn.
    2: { intros Hd. destruct (deliver_any _ _ _ _ _ _ _ _ _ Hd) as (-> & Hy & He). auto. }
    destruct (existsb (String.eqb n) (interrupt_before graph) && negb resuming).
    { intros Hd. destruct (deliver_any _ _ _ _ _ _ _ _ _ Hd) as (-> & Hy & He). auto. }
    destruct (Pregel.deliver _ _ _ _) as [[[h1 s1]|e0] [ys1 w1]] eqn:Hd;
      destruct (deliver_any _ _ _ _ _ _ _ _ _ Hd) as (-> & (more1 & -> & Hall1) & He).
    2: { intros [= <- <- <-]. repeat apply conj; eauto. }
    destruct (Pregel.execute graph tid cp n w) as [[ev|e1] w2] eqn:Hx;
      destruct (execute_any _ _ _ _ _ _ Hx) as (Hu & Hother & Hres).
    + intros Hl. destruct (IH _ _ _ _ _ _ _ _ _ Hl) as (Hu' & Hother' & (more2 & -> & Hall2) & Hfuel).
      split; [congruence|]. split; [intros t Ht; rewrite Hother', Hother by exact Ht; reflexivity|].
      split.
      * exists (more1 ++ more2). rewrite app_assoc. split; [reflexivity|].
        apply Forall_app; auto.
      * intros Hle. apply Hfuel. destruct Hres as (cp' & -> & Hlt).
        cbn [mbind option_bind]. lia.
    + intros [= <- <- <-]. split; [exact Hu|]. split; [exact Hother|].
      split; [eauto|]. intros _ e [= <-]. exact Hres.
Qed.

Lemma successor_any (n : string) (st : State) :
  match Pregel.successor graph n st with
  | Ok _ => True
  | Err e => e <> GraphRecursionError /\ n = "recipe_generator" /\
             st !! "allergenes_detected" = None
  end.
Proof.
  unfold Pregel.successor. cbn [assoc conditional_edges edges builder graph graph_builder].
  destruct (String.eqb n "recipe_generator") eqn:E.
  - apply String.eqb_eq in E. unfold allergenes_check_condition, dict_get.
    destruct (st !! "allergenes_detected") as [v|]; [destruct (truthy v); exact I|].
    repeat apply conj; [discriminate | exact E | reflexivity].
  - destruct (String.eqb n START); [exact I|].
    destruct (String.eqb n "human_feedback_handler"); [exact I|].
    destruct (String.eqb n "recipe_finalizer"); exact I.
Qed.

Lemma steps_left_le (next : option string) : steps_left next <= Pregel.recursion_limit.
Proof.
  unfold Pregel.recursion_limit. destruct next as [n|]; cbn [steps_left]; [|lia].
  destruct (String.eqb n "recipe_generator"); [lia|].
  destruct (String.eqb n "human_feedback_handler"); lia.
Qed.

Lemma stream_any (tid : string) (input : option State) (h : list Entry) (s : State)
    (ys : list Yield) (w : World) (r : Res (list Entry * State)) (ys' : list Yield)
    (w' : World) :
  Pregel.stream graph tid (loop_body tid) input (h, s) (ys, w) = (r, (ys', w')) ->
  w_uuids w' = w_uuids w /\
  (forall t, t <> tid -> w_memory w' !! t = w_memory w !! t) /\
  (exists more, ys' = ys ++ more /\ Forall (fun y : Yield => snd y = tid) more) /\
  (forall e, r = Err e -> e <> GraphRecursionError).
Proof.
  unfold Pregel.stream, Pregel.save. cbv [bind lift get_world of_res raise fst snd].
  destruct input as [inp|].
  - rewrite successor_start. intros Hl.
    destruct (loop_any _ _ _ _ _ _ _ _ _ _ _ Hl) as (Hu & Ho & Hy & He).
    split; [exact Hu|]. split.
    + intros t Ht. rewrite Ho by exact Ht. apply other_thread_saved, Ht.
    + split; [exact Hy|]. apply He. apply steps_left_le.
  - destruct (w_memory w !! tid) as [cp|] eqn:Hm.
    + intros Hl. destruct (loop_any _ _ _ _ _ _ _ _ _ _ _ Hl) as (Hu & Ho & Hy & He).
      repeat apply conj; auto. apply He, steps_left_le.
    + intros [= <- <- <-]. repeat apply conj; auto.
      * exists []. rewrite app_nil_r. auto.
      * intros e [= <-]. discriminate.
Qed.

(** [update_state] with values that hold the flag: it never raises, and
    writes the thread of its config only. *)
Lemma update_state_flagged (tid : string) (values : State) (v : pyval) (w : World) :
  values !! "allergenes_detected" = Some v ->
  exists w', Pregel.update_state graph tid values w = (Ok tt, w') /\
             w_uuids w' = w_uuids w /\
             forall t, t <> tid -> w_memory w' !! t = w_memory w !! t.
Proof.
  intros Hv. unfold Pregel.update_state, Pregel.save. cbv [bind get_world of_res].
  pose proof (successor_any (default START (w_memory w !! tid ≫= cp_last))
                (values ∪ Pregel.values_of w tid)) as Hs.
  destruct (Pregel.successor _ _ _) as [nxt|e].
  - eexists. split; [reflexivity|]. split; [reflexivity|].
    intros t Ht. apply other_thread_saved, Ht.
  - destruct Hs as (_ & _ & Hnone).
    rewrite (lookup_union_Some_l _ _ _ _ Hv) in Hnone. discriminate.
Qed.

(** Any call of [process_request], whatever its inputs. *)
Lemma process_request_any (message : string) (h : list Entry) (st : option State)
    (uid : option string) (w : World) (r : Res unit) (ys : list Yield) (w' : World) :
  process_request message h st uid ([], w) = (r, (ys, w')) ->
  w_uuids w' = w_uuids (snd (resolve_user uid w)) /\
  (forall t, t <> fst (resolve_user uid w) -> w_memory w' !! t = w_memory w !! t) /\
  (exists y more, ys = y :: more /\
                  Forall (fun y : Yield => snd y = fst (resolve_user uid w)) ys) /\
  (forall e, r = Err e -> e <> GraphRecursionError).
Proof.
  assert (Hgo : forall (u : string) (wa : World) (vars : list Entry * State)
                       (input : option State),
    (forall t, t <> u -> w_memory wa !! t = w_memory w !! t) ->
    match Pregel.stream graph u (loop_body u) input vars
            ([] ++ [(fst vars, snd vars, u)], wa) with
    | (Ok _, s') => (Ok tt, s')
    | (Err e, s') => (Err e, s')
    end = (r, (ys, w')) ->
    w_uuids w' = w_uuids wa /\
    (forall t, t <> u -> w_memory w' !! t = w_memory w !! t) /\
    (exists y more, ys = y :: more /\ Forall (fun y : Yield => snd y = u) ys) /\
    (forall e, r = Err e -> e <> GraphRecursionError)).
  { intros u wa [h1 s1] input Hmem.
    destruct (Pregel.stream _ _ _ _ _ _) as [r1 [ys1 w1]] eqn:Hs.
    destruct (stream_any _ _ _ _ _ _ _ _ _ Hs) as (Hu & Ho & (more & -> & Hall) & He).
    assert (Hys : exists y more0,
              [] ++ [(fst (h1, s1), snd (h1, s1), u)] ++ more = y :: more0 /\
              Forall (fun y : Yield => snd y = u)
                ([] ++ [(fst (h1, s1), snd (h1, s1), u)] ++ more)).
    { eexists _, _. split; [reflexivity|]. constructor; [reflexivity | exact Hall]. }
    rewrite app_assoc in Hys.
    destruct r1 as [a|e1]; intros [= <- <- <-]; repeat apply conj; auto;
      try (intros t Ht; rewrite Ho by exact Ht; apply Hmem, Ht);
      try discriminate.
    intros e [= <-]. apply (He e1 eq_refl). }
  unfold process_request, yield_, mint, resolve_user.
  cbv [bind ret lift of_res modify_fst].
  set (u := match uid with
            | None | Some EmptyString => uuid4 (w_uuids w)
            | Some u0 => u0
            end).
  set (wa := match uid with
             | None | Some EmptyString => set_uuids S w
             | Some _ => w
             end).
  assert (Hwa : w_memory wa = w_memory w) by (unfold wa; destruct uid as [[|c u0]|]; reflexivity).
  replace (fst match uid with
               | None | Some EmptyString => (uuid4 (w_uuids w), set_uuids S w)
               | Some u0 => (u0, w)
               end) with u by (unfold u; destruct uid as [[|c u0]|]; reflexivity).
  replace (snd match uid with
               | None | Some EmptyString => (uuid4 (w_uuids w), set_uuids S w)
               | Some u0 => (u0, w)
               end) with wa by (unfold wa; destruct uid as [[|c u0]|]; reflexivity).
  replace (match uid with
           | None | Some EmptyString =>
               fun xs : list Yield * World =>
                 let (r0, s') := (Ok (uuid4 (w_uuids (snd xs))), set_uuids S (snd xs)) in
                 (r0, (fst xs, s'))
           | Some u0 => fun s : list Yield * World => (Ok u0, s)
           end ([], w)) with (Ok u : Res string, (([] : list Yield), wa))
    by (unfold u, wa; destruct uid as [[|c u0]|]; reflexivity).
  destruct st as [st0|]; [destruct (decide (st0 = ∅)) as [_|_]|].
  - cbv [fst snd]. apply Hgo. intros t _. rewrite Hwa. reflexivity.
  - destruct (st0 !! "allergenes_detected") as [v|] eqn:Hv;
      [destruct (truthy v)|].
    + cbv [fst snd].
      destruct (update_state_flagged u (<["human_feedback" := VStr message]> st0) v wa)
        as (w1 & -> & Hu1 & Ho1).
      { rewrite lookup_insert_ne by done. exact Hv. }
      intros Hrun. rewrite <- Hu1.
      refine (Hgo u w1 _ _ _ Hrun).
      intros t Ht. rewrite Ho1 by exact Ht. rewrite Hwa. reflexivity.
    + cbv [fst snd]. apply Hgo. intros t _. rewrite Hwa. reflexivity.
    + cbv [fst snd]. apply Hgo. intros t _. rewrite Hwa. reflexivity.
  - cbv [fst snd]. apply Hgo. intros t _. rewrite Hwa. reflexivity.
Qed.

(** A call of [process_request] reads and writes the thread of its own
    user id only: every other thread of the [MemorySaver] is as before,
    whether the call returns or raises, and every yield carries that id. *)
Theorem submit_keeps_other_threads (message : string) (h : list Entry)
    (st : option State) (uid : option string) (w : World) (r : Res unit)
    (ys : list Yield) (w' : World) :
  process_request message h st uid ([], w) = (r, (ys, w')) ->
  (forall t, t <> fst (resolve_user uid w) -> w_memory w' !! t = w_memory w !! t) /\
  Forall (fun y : Yield => snd y = fst (resolve_user uid w)) ys.
Proof.
  intros Hrun.
  destruct (process_request_any _ _ _ _ _ _ _ _ Hrun) as (_ & Ho & (y & more & _ & Hall) & _).
  split; assumption.
Qed.

(** A user id that is given and not empty is kept, and no uuid is drawn;
    without one ([None] or the empty string) exactly one uuid is drawn and
    used for the whole call. *)
Theorem submit_user_id (message : string) (h : list Entry) (st : option State)
    (uid : option string) (w : World) (r : Res unit) (ys : list Yield) (w' : World) :
  process_request message h st uid ([], w) = (r, (ys, w')) ->
  (forall u, uid = Some u -> u <> EmptyString ->
     Forall (fun y : Yield => snd y = u) ys /\ w_uuids w' = w_uuids w) /\
  (uid = None \/ uid = Some EmptyString ->
     Forall (fun y : Yield => snd y = uuid4 (w_uuids w)) ys /\
     w_uuids w' = S (w_uuids w)).
Proof.
  intros Hrun.
  destruct (process_request_any _ _ _ _ _ _ _ _ Hrun) as (Hu & _ & (y & more & _ & Hall) & _).
  split.
  - intros u -> Hne. destruct u as [|c u]; [contradiction|]. split; assumption.
  - intros [-> | ->]; split; assumption.
Qed.

(** No call of [process_request] raises [GraphRecursionError]: from any
    checkpoint the graph is at most three nodes away from [END], far below
    the limit of 25 steps. *)
Theorem submit_never_out_of_steps (message : string) (h : list Entry)
    (st : option State) (uid : option string) (w : World) (r : Res unit)
    (ys : list Yield) (w' : World) :
  process_request message h st uid ([], w) = (r, (ys, w')) ->
  r <> Err GraphRecursionError.
Proof.
  intros Hrun.
  destruct (process_request_any _ _ _ _ _ _ _ _ Hrun) as (_ & _ & _ & He).
  intros ->. exact (He _ eq_refl eq_refl).
Qed.

(** Every call yields at least once, also when it raises afterwards. *)
Theorem submit_yields_first (message : string) (h : list Entry) (st : option State)
    (uid : option string) (w : World) (r : Res unit) (ys : list Yield) (w' : World) :
  process_request message h st uid ([], w) = (r, (ys, w')) ->
  ys <> [].
Proof.
  intros Hrun.
  destruct (process_request_any _ _ _ _ _ _ _ _ Hrun) as (_ & _ & (y & more & -> & _) & _).
  discriminate.
Qed.

(** On a state that is not empty and whose flag is absent or false, the
    message plays no part: the call is the same for every message. *)
Theorem message_ignored_without_flag (m1 m2 : string) (h : list Entry) (st : State)
    (uid : option string) :
  st <> ∅ ->
  (st !! "allergenes_detected" = None \/
   exists v, st !! "allergenes_detected" = Some v /\ truthy v = false) ->
  process_request m1 h (Some st) uid = process_request m2 h (Some st) uid.
Proof.
  intros Hne Hflag. unfold process_request.
  destruct (decide (st = ∅)) as [He|_]; [contradiction|].
  destruct Hflag as [-> | (v & -> & ->)]; reflexivity.
Qed.

End AnyCall.

(** * Further properties of a session *)

Section SessionEdges.

Context {ext : Externals}.

Ltac run_request :=
  unfold process_request, yield_;
  cbv [bind ret lift of_res modify_fst fst snd].

(** A first submit that raises does so in [recipe_generator], with the
    client's exception or with [IndexError]; it has yielded the
    acknowledgement only, and the thread's checkpoint holds the request,
    with [recipe_generator] pending and nothing of the failed run. *)
Theorem first_submit_failure (message : string) (h : list Entry) (st0 : option State)
    (uid : option string) (w : World) (e : exn) (ys : list Yield) (w' : World) :
  st0 = None \/ st0 = Some ∅ ->
  process_request message h st0 uid ([], w) = (Err e, (ys, w')) ->
  (e = OpenAIError \/ e = IndexError) /\
  ys = [([(Some message, VStr "Generating recipe...")],
         {[ "recipe_request" := VStr message ]}, fst (resolve_user uid w))] /\
  exists cp,
    w_memory w' !! fst (resolve_user uid w) = Some cp /\
    cp_next cp = Some "recipe_generator" /\
    cp_values cp
    = {[ "recipe_request" := VStr message ]}
      ∪ Pregel.values_of w (fst (resolve_user uid w)).
Proof.
  intros Hst.
  assert (Hgo : forall (u : string) (wa : World) (ys0 : list Yield),
    w_memory wa = w_memory w ->
    match Pregel.stream graph u (loop_body u)
            (Some ({[ "recipe_request" := VStr message ]} : State))
            ([(Some message, VStr "Generating recipe...")],
             ({[ "recipe_request" := VStr message ]} : State)) (ys0, wa)
    with
    | (Ok _, s') => (Ok tt, s')
    | (Err e, s') => (Err e, s')
    end = (Err e, (ys, w')) ->
    (e = OpenAIError \/ e = IndexError) /\ ys = ys0 /\
    exists cp, w_memory w' !! u = Some cp /\ cp_next cp = Some "recipe_generator" /\
               cp_values cp = {[ "recipe_request" := VStr message ]} ∪ Pregel.values_of w u).
  { intros u wa ys0 Hmem.
    set (inp := ({[ "recipe_request" := VStr message ]} : State)).
    set (vals0 := (inp ∪ Pregel.values_of wa u : State)).
    set (w0 := set_memory
                 (fun m => <[u := mkCheckpoint vals0 (Some "recipe_generator") None]> m) wa).
    destruct (recipe_generator (vals0, set_ran (fun l => l ++ ["recipe_generator"]) w0))
      as [[upd|e0] [d' w1]] eqn:Hg.
    - destruct (recipe_generator_ok_inv _ _ _ _ _ Hg) as (draft & check & piece & Hp & Hupd).
      rewrite (split_second_contains _ _ _ Hp) in Hupd.
      assert (Had : upd !! "allergenes_detected" = Some (VBool true))
        by (rewrite Hupd; apply lookup_insert_eq).
      assert (Hal : upd !! "allergenes" = Some (VStr (Str.strip piece)))
        by (rewrite Hupd; rewrite lookup_insert_ne by done; apply lookup_insert_eq).
      rewrite (stream_input_pauses u inp _ _ ys0 wa upd d' w1 (VBool true) Hg
                 (lookup_union_Some_l _ _ _ _ Had) eq_refl).
      rewrite on_event_generator. unfold dict_get. rewrite Had, Hal.
      cbn [truthy slice_from]. intros Hbad. discriminate Hbad.
    - rewrite (stream_input_fails u inp _ _ ys0 wa e0 d' w1 Hg).
      intros [= <- <- <-].
      pose proof (recipe_generator_world _ _ _ _ _ Hg) as (_ & Hm & _).
      split; [|split; [reflexivity|]].
      + rewrite recipe_generator_eq in Hg.
        assert (Hreq : vals0 !! "recipe_request" = Some (VStr message))
          by (apply lookup_union_Some_l, lookup_singleton_eq).
        rewrite Hreq in Hg. cbv zeta in Hg.
        destruct (completion _ (generate_prompt (VStr message))) as [draft|];
          [|injection Hg as <- _ _; auto].
        destruct (completion _ (analyze_prompt (VStr draft))) as [check|];
          [|injection Hg as <- _ _; auto].
        destruct (Str.split "ALLERGENES FOUND" check !! 1);
          [discriminate | injection Hg as <- _ _; auto].
      + eexists. rewrite Hm. cbn [w_memory set_ran]. unfold w0. rewrite memory_set.
        split; [apply lookup_insert_eq|]. split; [reflexivity|].
        cbn [cp_values]. unfold vals0, Pregel.values_of. rewrite Hmem. reflexivity. }
  assert (Hno : dict_has "human_feedback" ({[ "recipe_request" := VStr message ]} : State)
                = false)
    by (unfold dict_has; rewrite lookup_singleton_ne by done; reflexivity).
  run_request. unfold mint, resolve_user.
  destruct Hst as [-> | ->]; [|destruct (decide ((∅ : State) = ∅)) as [_|Hne]; [|contradiction]];
    destruct uid as [[|c u0]|]; cbv [ret fst snd]; rewrite Hno;
    apply Hgo; reflexivity.
Qed.

(** The submit on a waiting session, in terms of [recipe_finalizer]. *)
Lemma submit_waiting_eq (message : string) (h : list Entry) (st : State) (u : string)
    (w : World) (cp : Checkpoint) (v : pyval) :
  u <> EmptyString ->
  st !! "allergenes_detected" = Some v -> truthy v = true ->
  w_memory w !! u = Some cp ->
  cp_last cp = Some "recipe_generator" ->
  let st1 : State := <["human_feedback" := VStr message]> st in
  let vals : State := st1 ∪ cp_values cp in
  let vals1 : State := <["allergenes_detected" := VBool false]> vals ∪ vals in
  let h1 := h ++ [(Some message, VStr "Updating recipe...")] in
  let w1 :=
    set_memory (fun m => <[u := mkCheckpoint vals1 (Some "recipe_finalizer")
                                   (Some "human_feedback_handler")]> m)
      (set_ran (fun l => l ++ ["human_feedback_handler"])
         (set_memory (fun m => <[u := mkCheckpoint vals (Some "human_feedback_handler")
                                        (Some "recipe_generator")]> m) w)) in
  process_request message h (Some st) (Some u) ([], w) =
  match recipe_finalizer (vals1, set_ran (fun l => l ++ ["recipe_finalizer"]) w1) with
  | (Err e, (_, w2)) => (Err e, ([(h1, st1, u); (h1, vals1, u)], w2))
  | (Ok upd, (_, w2)) =>
      match dict_get "final_recipe" upd with
      | Ok r =>
          (Ok tt,
           ([(h1, st1, u); (h1, vals1, u);
             (h1 ++ [(None, VStr (final_message r))], upd ∪ vals1, u)],
            set_memory (fun m => <[u := mkCheckpoint (upd ∪ vals1) None
                                           (Some "recipe_finalizer")]> m) w2))
      | Err e =>
          (Err e,
           ([(h1, st1, u); (h1, vals1, u)],
            set_memory (fun m => <[u := mkCheckpoint (upd ∪ vals1) None
                                           (Some "recipe_finalizer")]> m) w2))
      end
  end.
Proof.
  intros Hu Hv Ht Hm Hl st1 vals vals1 h1 w1.
  run_request. destruct u as [|c u0]; [contradiction|].
  destruct (decide (st = ∅)) as [->|_]; [rewrite lookup_empty in Hv; discriminate|].
  rewrite Hv, Ht.
  assert (Hv1 : st1 !! "allergenes_detected" = Some v)
    by (unfold st1; rewrite lookup_insert_ne by done; exact Hv).
  fold st1.
  rewrite (update_state_after_generator _ st1 w cp v Hm Hl Hv1), Ht.
  cbv [ret fst snd]. unfold dict_has at 1. unfold st1 at 1. rewrite lookup_insert_eq.
  fold st1. fold h1.
  erewrite stream_resume;
    [|rewrite memory_set, lookup_insert_eq; reflexivity | reflexivity].
  cbn [cp_values]. fold vals. fold vals1. fold w1.
  destruct (recipe_finalizer _) as [[upd|e] [d2 w2]]; [|reflexivity].
  destruct (dict_get "final_recipe" upd); reflexivity.
Qed.

Lemma waiting_values (message : string) (st cpv : State) (recipe : pyval) :
  st !! "recipe" = Some recipe ->
  let st1 : State := <["human_feedback" := VStr message]> st in
  let vals : State := st1 ∪ cpv in
  let vals1 : State := <["allergenes_detected" := VBool false]> vals ∪ vals in
  vals1 !! "recipe" = Some recipe /\
  vals1 !! "human_feedback" = Some (VStr message) /\
  vals1 !! "allergenes_detected" = Some (VBool false).
Proof.
  intros Hr st1 vals vals1. repeat apply conj.
  - apply lookup_union_Some_l. rewrite lookup_insert_ne by done.
    apply lookup_union_Some_l. unfold st1. rewrite lookup_insert_ne by done. exact Hr.
  - apply lookup_union_Some_l. rewrite lookup_insert_ne by done.
    apply lookup_union_Some_l, lookup_insert_eq.
  - apply lookup_union_Some_l, lookup_insert_eq.
Qed.

(** Answering with an empty text: the session completes without a request
    to the client, and the final recipe is the draft. *)
Theorem resume_empty_feedback (h : list Entry) (st : State) (u : string) (w : World)
    (recipe : pyval) :
  Waiting st u w -> st !! "recipe" = Some recipe ->
  exists (ys : list Yield) (w' : World) (st' : State),
    process_request EmptyString h (Some st) (Some u) ([], w) = (Ok tt, (ys, w')) /\
    w_calls w' = w_calls w /\
    last ys = Some (h ++ [(Some EmptyString, VStr "Updating recipe...");
                          (None, VStr (final_message recipe))], st', u) /\
    st' !! "final_recipe" = Some recipe /\
    Completed (h ++ [(Some EmptyString, VStr "Updating recipe...");
                     (None, VStr (final_message recipe))]) st' u w'.
Proof.
  intros (Hu & (v & Hv & Ht) & cp & Hm & Hn & Hl) Hr.
  rewrite (submit_waiting_eq EmptyString h st u w cp v Hu Hv Ht Hm Hl). cbv zeta.
  destruct (waiting_values EmptyString st (cp_values cp) recipe Hr) as (Hr1 & Hf1 & Ha1).
  cbv zeta in Hr1, Hf1, Ha1.
  rewrite recipe_finalizer_eq, Hr1, Hf1. cbn [truthy].
  unfold dict_get. rewrite lookup_insert_eq.
  eexists _, _, _. split; [reflexivity|]. split; [reflexivity|].
  split; [cbn [last]; rewrite <- app_assoc; reflexivity|].
  split; [apply lookup_union_Some_l, lookup_insert_eq|].
  repeat apply conj.
  - exact Hu.
  - apply lookup_union_Some_l. rewrite lookup_insert_ne by done. exact Ha1.
  - eexists. apply lookup_union_Some_l. rewrite lookup_insert_ne by done. exact Hf1.
  - exists recipe. split; [apply lookup_union_Some_l, lookup_insert_eq|].
    rewrite last_app. reflexivity.
  - eexists. split; [rewrite memory_set; apply lookup_insert_eq | reflexivity].
Qed.

(** Answering with a text: exactly one request goes to the client, built
    from the draft and that text.  Its answer becomes the final recipe and
    the last row of the history; when the request fails the call raises
    after [human_feedback_handler] has run, and the thread waits at
    [recipe_finalizer] with the feedback stored and the flag cleared. *)
Theorem resume_with_feedback (message : string) (h : list Entry) (st : State)
    (u : string) (w : World) (recipe : pyval) (r : Res unit) (ys : list Yield)
    (w' : World) :
  Waiting st u w -> st !! "recipe" = Some recipe -> message <> EmptyString ->
  process_request message h (Some st) (Some u) ([], w) = (r, (ys, w')) ->
  w_calls w' = w_calls w ++ [modify_prompt recipe (VStr message)] /\
  match completion (length (w_calls w)) (modify_prompt recipe (VStr message)) with
  | Some answer =>
      r = Ok tt /\
      exists st',
        last ys = Some (h ++ [(Some message, VStr "Updating recipe...");
                              (None, VStr (final_message (VStr answer)))], st', u) /\
        st' !! "final_recipe" = Some (VStr answer) /\
        st' !! "human_feedback" = Some (VStr message)
  | None =>
      r = Err OpenAIError /\
      exists st' cp',
        last ys = Some (h ++ [(Some message, VStr "Updating recipe...")], st', u) /\
        st' !! "allergenes_detected" = Some (VBool false) /\
        w_memory w' !! u = Some cp' /\
        cp_next cp' = Some "recipe_finalizer" /\
        cp_values cp' !! "human_feedback" = Some (VStr message)
  end.
Proof.
  intros (Hu & (v & Hv & Ht) & cp & Hm & Hn & Hl) Hr Hmsg.
  rewrite (submit_waiting_eq message h st u w cp v Hu Hv Ht Hm Hl). cbv zeta.
  destruct (waiting_values message st (cp_values cp) recipe Hr) as (Hr1 & Hf1 & Ha1).
  cbv zeta in Hr1, Hf1, Ha1.
  rewrite recipe_finalizer_eq, Hr1, Hf1.
  assert (Htm : truthy (VStr message) = true) by (destruct message; [contradiction | reflexivity]).
  rewrite Htm. cbv zeta. cbn [w_calls set_calls set_ran set_memory].
  destruct (completion (length (w_calls w)) (modify_prompt recipe (VStr message)))
    as [answer|].
  - unfold dict_get. rewrite lookup_insert_eq. intros [= <- <- <-].
    split; [reflexivity|]. split; [reflexivity|].
    eexists. split; [cbn [last]; rewrite <- app_assoc; reflexivity|].
    split; [apply lookup_union_Some_l, lookup_insert_eq|].
    apply lookup_union_Some_l. rewrite lookup_insert_ne by done. exact Hf1.
  - intros [= <- <- <-]. split; [reflexivity|]. split; [reflexivity|].
    eexists _, _. split; [reflexivity|]. split; [exact Ha1|].
    split; [apply lookup_insert_eq|]. split; [reflexivity | exact Hf1].
Qed.

(** A resumption of a thread that waits at [recipe_finalizer] runs that node
    only. *)
Lemma stream_at_finalizer (u : string) (h : list Entry) (s : State) (ys : list Yield)
    (w : World) (cp : Checkpoint) :
  w_memory w !! u = Some cp -> cp_next cp = Some "recipe_finalizer" ->
  Pregel.stream graph u (loop_body u) None (h, s) (ys, w) =
  match recipe_finalizer (cp_values cp, set_ran (fun l => l ++ ["recipe_finalizer"]) w) with
  | (Err e, (_, w2)) => (Err e, (ys, w2))
  | (Ok upd, (_, w2)) =>
      let vals2 : State := upd ∪ cp_values cp in
      let w3 :=
        set_memory (fun m => <[u := mkCheckpoint vals2 None (Some "recipe_finalizer")]> m) w2 in
      match dict_get "final_recipe" upd with
      | Ok r =>
          (Ok (h ++ [(None, VStr (final_message r))], vals2),
           (ys ++ [(h ++ [(None, VStr (final_message r))], vals2, u)], w3))
      | Err e => (Err e, (ys, w3))
      end
  end.
Proof.
  intros Hm Hn. unfold Pregel.stream. cbv [bind lift get_world fst snd].
  rewrite Hm. unfold Pregel.recursion_limit.
  rewrite loop_unfold, Hm, Hn.
  cbn [existsb interrupt_before graph String.eqb Ascii.eqb Bool.eqb andb orb negb
       Pregel.deliver app].
  cbv [ret].
  rewrite (execute_eq _ _ _ recipe_finalizer) by reflexivity.
  destruct (recipe_finalizer _) as [[upd|e] [d2 w2]]; [|reflexivity].
  rewrite successor_finalizer.
  rewrite loop_unfold, memory_set, lookup_insert_eq.
  cbn [cp_next Pregel.deliver]. cbv [bind ret].
  rewrite loop_body_eq, on_event_finalizer, values_of_saved. cbn [cp_values].
  destruct (dict_get "final_recipe" upd); reflexivity.
Qed.

(** A submit on a session whose thread waits at [recipe_finalizer] (a
    finalize that failed before) with a state that holds the feedback and a
    cleared flag: only [recipe_finalizer] runs, on the values of the
    checkpoint.  When it returns, the history gets the final recipe as its
    one new row, and the thread is at [END]. *)
Theorem finalize_retry (message : string) (h : list Entry) (st : State) (u : string)
    (w : World) (cp : Checkpoint) (r : Res unit) (ys : list Yield) (w' : World) :
  u <> EmptyString ->
  is_Some (st !! "human_feedback") ->
  (st !! "allergenes_detected" = None \/
   exists v, st !! "allergenes_detected" = Some v /\ truthy v = false) ->
  w_memory w !! u = Some cp -> cp_next cp = Some "recipe_finalizer" ->
  process_request message h (Some st) (Some u) ([], w) = (r, (ys, w')) ->
  w_ran w' = w_ran w ++ ["recipe_finalizer"] /\
  (r = Ok tt ->
   exists (st' : State) (fr : pyval) (cp' : Checkpoint),
     last ys = Some (h ++ [(None, VStr (final_message fr))], st', u) /\
     st' !! "final_recipe" = Some fr /\
     (forall k : string, k <> "final_recipe" -> st' !! k = cp_values cp !! k) /\
     w_memory w' !! u = Some cp' /\ cp_next cp' = None).
Proof.
  intros Hu [fb Hfb] Hflag Hm Hn.
  run_request. destruct u as [|c u0]; [contradiction|].
  destruct (decide (st = ∅)) as [->|_]; [rewrite lookup_empty in Hfb; discriminate|].
  assert (Hf : match st !! "allergenes_detected" with
               | Some v => truthy v
               | None => false
               end = false)
    by (destruct Hflag as [-> | (v & -> & ->)]; reflexivity).
  rewrite Hf. cbv [ret fst snd]. unfold dict_has. rewrite Hfb.
  rewrite (stream_at_finalizer _ _ _ _ _ cp Hm Hn).
  destruct (recipe_finalizer _) as [[upd|e] [d2 w2]] eqn:Hfin;
    pose proof (recipe_finalizer_inv _ _ _ _ _ Hfin) as (Hran & _ & Hupd).
  - destruct (Hupd upd eq_refl) as [fr ->]. cbv zeta.
    unfold dict_get. rewrite lookup_insert_eq. intros [= <- <- <-].
    split; [cbn [w_ran set_ran set_memory] in *; exact Hran|]. intros _.
    eexists _, fr, _. split; [reflexivity|].
    split; [apply lookup_union_Some_l, lookup_insert_eq|].
    split; [|split; [rewrite memory_set; apply lookup_insert_eq | reflexivity]].
    intros k Hk.
    destruct (cp_values cp !! k) as [x|] eqn:Hx.
    + apply lookup_union_Some_l. rewrite lookup_insert_ne by congruence. exact Hx.
    + apply lookup_union_None_2; [rewrite lookup_insert_ne by congruence|]; exact Hx.
  - intros [= <- <- <-]. split; [exact Hran | discriminate].
Qed.

Lemma load_example_text (k : Z) (text : string) :
  load_example k = Some text -> text <> EmptyString.
Proof.
  unfold load_example.
  destruct (k =? 1)%Z; [intros [= <-]; discriminate|].
  destruct (k =? 2)%Z; [intros [= <-]; discriminate|].
  destruct (k =? 3)%Z; [intros [= <-]; discriminate | discriminate].
Qed.

(** An example button pressed while the session waits for the user's
    answer starts no new recipe: the example text is taken as the answer.
    [human_feedback_handler] and [recipe_finalizer] run, and the one
    request sent asks to modify the draft according to the example text. *)
Theorem example_click_while_waiting (k : Z) (h : list Entry) (st : State) (u : string)
    (w : World) (recipe : pyval) (run : M (list Yield * World) unit) (r : Res unit)
    (ys : list Yield) (w' : World) :
  Waiting st u w -> st !! "recipe" = Some recipe ->
  example_click k h (Some st) (Some u) = Some run ->
  run ([], w) = (r, (ys, w')) ->
  exists text,
    load_example k = Some text /\
    w_ran w' = w_ran w ++ ["human_feedback_handler"; "recipe_finalizer"] /\
    w_calls w' = w_calls w ++ [modify_prompt recipe (VStr text)].
Proof.
  intros Hw Hr. unfold example_click.
  destruct (load_example k) as [text|] eqn:Hk; [|discriminate].
  intros [= <-] Hrun. exists text. split; [reflexivity|].
  split; [exact (proj1 (submit_waiting _ _ _ _ _ _ _ _ Hw Hrun))|].
  destruct Hw as (Hu & (v & Hv & Ht) & cp & Hm & Hn & Hl).
  rewrite (submit_waiting_eq text h st u w cp v Hu Hv Ht Hm Hl) in Hrun. cbv zeta in Hrun.
  destruct (waiting_values text st (cp_values cp) recipe Hr) as (Hr1 & Hf1 & _).
  cbv zeta in Hr1, Hf1.
  rewrite recipe_finalizer_eq, Hr1, Hf1 in Hrun.
  assert (Htm : truthy (VStr text) = true).
  { pose proof (load_example_text _ _ Hk). destruct text; [contradiction | reflexivity]. }
  rewrite Htm in Hrun. cbv zeta in Hrun.
  destruct (completion _ (modify_prompt recipe (VStr text))) as [answer|].
  - unfold dict_get in Hrun. rewrite lookup_insert_eq in Hrun.
    injection Hrun as _ _ <-. reflexivity.
  - injection Hrun as _ _ <-. reflexivity.
Qed.

(** An example button pressed after the session completed does nothing:
    no recipe is generated for the example. *)
Theorem example_click_after_completion (k : Z) (h : list Entry) (st : State)
    (u : string) (w : World) (run : M (list Yield * World) unit) :
  Completed h st u w ->
  example_click k h (Some st) (Some u) = Some run ->
  run ([], w) = (Ok tt, ([(h, st, u)], w)).
Proof.
  intros Hc. unfold example_click.
  destruct (load_example k) as [text|]; [|discriminate].
  intros [= <-]. exact (submit_completed text _ _ _ _ Hc).
Qed.

Lemma on_event_prefix (ev : Event) (h h' : list Entry) :
  on_event ev h = Ok h' -> h `prefix_of` h'.
Proof.
  destruct ev as [name upd|]; [|intros [= <-]; reflexivity].
  unfold on_event.
  destruct (String.eqb name "recipe_generator").
  - destruct (dict_get "allergenes_detected" upd) as [v|]; [|discriminate].
    destruct (truthy v).
    + destruct (dict_get "allergenes" upd) as [a|]; [|discriminate].
      destruct (slice_from 2 a); [|discriminate].
      intros [= <-]. apply prefix_app_r. reflexivity.
    + destruct (dict_get "recipe" upd); [|discriminate].
      intros [= <-]. apply prefix_app_r. reflexivity.
  - destruct (String.eqb name "recipe_finalizer"); [|intros [= <-]; reflexivity].
    destruct (dict_get "final_recipe" upd); [|discriminate].
    intros [= <-]. apply prefix_app_r. reflexivity.
Qed.

Lemma deliver_history (tid : string) (h0 : list Entry) (events : list Event) :
  forall (h : list Entry) (s : State) (ys : list Yield) (w : World)
         (r : Res (list Entry * State)) (ys' : list Yield) (w' : World),
  Pregel.deliver (loop_body tid) events (h, s) (ys, w) = (r, (ys', w')) ->
  h0 `prefix_of` h ->
  Forall (fun y : Yield => h0 `prefix_of` fst (fst y)) ys ->
  Forall (fun y : Yield => h0 `prefix_of` fst (fst y)) ys' /\
  forall h' s', r = Ok (h', s') -> h0 `prefix_of` h'.
Proof.
  induction events as [|ev events IH]; intros h s ys w r ys' w'.
  - intros [= <- <- <-] Hp Hall. split; [exact Hall|]. intros h' s' [= <- <-]. exact Hp.
  - cbn [Pregel.deliver]. cbv [bind]. rewrite loop_body_eq.
    destruct (on_event ev h) as [h1|e1] eqn:Hev.
    + intros Hd Hp Hall.
      assert (Hp1 : h0 `prefix_of` h1)
        by (etransitivity; [exact Hp | exact (on_event_prefix _ _ _ Hev)]).
      apply (IH _ _ _ _ _ _ _ Hd Hp1).
      apply Forall_app. split; [exact Hall|]. constructor; [exact Hp1 | constructor].
    + intros [= <- <- <-] Hp Hall. split; [exact Hall | discriminate].
Qed.

Lemma loop_history (tid : string) (h0 : list Entry) (fuel : nat) :
  forall (resuming : bool) (pending : list Event) (h : list Entry) (s : State)
         (ys : list Yield) (w : World) (r : Res (list Entry * State))
         (ys' : list Yield) (w' : World),
  Pregel.loop graph tid (loop_body tid) fuel resuming pending (h, s) (ys, w)
  = (r, (ys', w')) ->
  h0 `prefix_of` h ->
  Forall (fun y : Yield => h0 `prefix_of` fst (fst y)) ys ->
  Forall (fun y : Yield => h0 `prefix_of` fst (fst y)) ys'.
Proof.
  induction fuel as [|fuel IH]; intros resuming pending h s ys w r ys' w'.
  - rewrite loop_zero.
    destruct (w_memory w !! tid) as [cp|];
      [|intros Hd Hp Hall; exact (proj1 (deliver_history _ _ _ _ _ _ _ _ _ _ Hd Hp Hall))].
    destruct (cp_next cp) as [n|];
      [|intros Hd Hp Hall; exact (proj1 (deliver_history _ _ _ _ _ _ _ _ _ _ Hd Hp Hall))].
    destruct (existsb (String.eqb n) (interrupt_before graph) && negb resuming);
      [intros Hd Hp Hall; exact (proj1 (deliver_history _ _ _ _ _ _ _ _ _ _ Hd Hp Hall))|].
    destruct (Pregel.deliver _ _ _ _) as [[acc'|e0] [ys1 w1]] eqn:Hd;
      intros [= <- <- <-] Hp Hall;
      exact (proj1 (deliver_history _ _ _ _ _ _ _ _ _ _ Hd Hp Hall)).
  - rewrite loop_unfold.
    destruct (w_memory w !! tid) as [cp|];
      [|intros Hd Hp Hall; exact (proj1 (deliver_history _ _ _ _ _ _ _ _ _ _ Hd Hp Hall))].
    destruct (cp_next cp) as [n|];
      [|intros Hd Hp Hall; exact (proj1 (deliver_history _ _ _ _ _ _ _ _ _ _ Hd Hp Hall))].
    destruct (existsb (String.eqb n) (interrupt_before graph) && negb resuming);
      [intros Hd Hp Hall; exact (proj1 (deliver_history _ _ _ _ _ _ _ _ _ _ Hd Hp Hall))|].
    destruct (Pregel.deliver _ _ _ _) as [[[h1 s1]|e0] [ys1 w1]] eqn:Hd.
    2: { intros [= <- <- <-] Hp Hall.
         exact (proj1 (deliver_history _ _ _ _ _ _ _ _ _ _ Hd Hp Hall)). }
    destruct (Pregel.execute graph tid cp n w1) as [[ev|e1] w2].
    + intros Hl Hp Hall.
      destruct (deliver_history _ _ _ _ _ _ _ _ _ _ Hd Hp Hall) as [Hall1 Hp1].
      exact (IH _ _ _ _ _ _ _ _ _ Hl (Hp1 _ _ eq_refl) Hall1).
    + intros [= <- <- <-] Hp Hall.
      exact (proj1 (deliver_history _ _ _ _ _ _ _ _ _ _ Hd Hp Hall)).
Qed.

Lemma stream_history (tid : string) (input : option State) (h : list Entry) (s : State)
    (w : World) (r : Res (list Entry * State)) (ys' : list Yield) (w' : World) :
  Pregel.stream graph tid (loop_body tid) input (h, s) ([(h, s, tid)], w)
  = (r, (ys', w')) ->
  Forall (fun y : Yield => h `prefix_of` fst (fst y)) ys'.
Proof.
  assert (H0 : Forall (fun y : Yield => h `prefix_of` fst (fst y)) [(h, s, tid)])
    by (constructor; [reflexivity | constructor]).
  unfold Pregel.stream, Pregel.save. cbv [bind lift get_world of_res raise fst snd].
  destruct input as [inp|].
  - rewrite successor_start. intros Hl.
    exact (loop_history _ _ _ _ _ _ _ _ _ _ _ _ Hl (reflexivity _) H0).
  - destruct (w_memory w !! tid) as [cp|].
    + intros Hl. exact (loop_history _ _ _ _ _ _ _ _ _ _ _ _ Hl (reflexivity _) H0).
    + intros [= <- <- <-]. exact H0.
Qed.

(** Within a call the chat only grows: every yielded history extends the
    one yielded first.  For a new session that first history is the
    acknowledgement row alone, whatever history came in; with the flag set
    it is the incoming history and the user's row; otherwise it is the
    incoming history. *)
Theorem history_only_grows (message : string) (h : list Entry) (st : option State)
    (uid : option string) (w : World) (r : Res unit) (ys : list Yield) (w' : World) :
  process_request message h st uid ([], w) = (r, (ys, w')) ->
  exists (h0 : list Entry) (s0 : State) (u : string) (more : list Yield),
    ys = (h0, s0, u) :: more /\
    Forall (fun y : Yield => h0 `prefix_of` fst (fst y)) more /\
    h0 = match st with
         | None => [(Some message, VStr "Generating recipe...")]
         | Some s =>
             if decide (s = ∅) then [(Some message, VStr "Generating recipe...")]
             else if match s !! "allergenes_detected" with
                     | Some v => truthy v
                     | None => false
                     end
                  then h ++ [(Some message, VStr "Updating recipe...")]
                  else h
         end.
Proof.
  assert (Hgo : forall (u : string) (wa : World) (vars : list Entry * State)
                       (input : option State),
    match Pregel.stream graph u (loop_body u) input vars
            ([] ++ [(fst vars, snd vars, u)], wa) with
    | (Ok _, s') => (Ok tt, s')
    | (Err e, s') => (Err e, s')
    end = (r, (ys, w')) ->
    exists more : list Yield,
      ys = (fst vars, snd vars, u) :: more /\
      Forall (fun y : Yield => fst vars `prefix_of` fst (fst y)) more).
  { intros u wa [h1 s1] input.
    destruct (Pregel.stream _ _ _ _ _ _) as [r1 [ys1 w1]] eqn:Hs.
    pose proof (stream_history _ _ _ _ _ _ _ _ Hs) as Hall.
    destruct (stream_any _ _ _ _ _ _ _ _ _ Hs) as (_ & _ & (more & -> & _) & _).
    cbn [app fst snd] in Hall. apply Forall_cons in Hall as [_ Hall].
    destruct r1; intros [= <- <- <-]; exists more; split; auto. }
  unfold process_request, yield_, mint.
  cbv [bind ret lift of_res modify_fst].
  destruct uid as [[|c u0]|]; cbv [fst snd];
    (destruct st as [st0|]; [destruct (decide (st0 = ∅)) as [->|Hne]|];
     [ intros Hrun; destruct (Hgo _ _ _ _ Hrun) as (more & -> & Hall);
       eexists _, _, _, more; repeat apply conj; [reflexivity | exact Hall | reflexivity]
     | destruct (st0 !! "allergenes_detected") as [v|] eqn:Hv; [destruct (truthy v)|];
       [ match goal with
         | |- context [Pregel.update_state graph ?u ?vals ?wa] =>
             destruct (update_state_flagged u vals v wa) as (w1 & -> & _ & _);
             [rewrite lookup_insert_ne by done; exact Hv|]
         end;
         intros Hrun; destruct (Hgo _ _ _ _ Hrun) as (more & -> & Hall);
         eexists _, _, _, more; repeat apply conj; [reflexivity | exact Hall | reflexivity]
       | intros Hrun; destruct (Hgo _ _ _ _ Hrun) as (more & -> & Hall);
         eexists _, _, _, more; repeat apply conj; [reflexivity | exact Hall | reflexivity]
       | intros Hrun; destruct (Hgo _ _ _ _ Hrun) as (more & -> & Hall);
         eexists _, _, _, more; repeat apply conj; [reflexivity | exact Hall | reflexivity] ]
     | intros Hrun; destruct (Hgo _ _ _ _ Hrun) as (more & -> & Hall);
       eexists _, _, _, more; repeat apply conj; [reflexivity | exact Hall | reflexivity] ]).
Qed.

End SessionEdges.

(** [load_example] has a text for 1, 2 and 3 and for no other number, and
    the three texts differ. *)
Theorem load_example_domain (k : Z) :
  (is_Some (load_example k) <-> (k = 1 \/ k = 2 \/ k = 3)%Z) /\
  (forall j : Z, is_Some (load_example k) -> load_example j = load_example k -> j = k).
Proof.
  unfold load_example. split.
  - destruct (Z.eqb_spec k 1) as [->|H1]; [split; eauto|].
    destruct (Z.eqb_spec k 2) as [->|H2]; [split; eauto|].
    destruct (Z.eqb_spec k 3) as [->|H3]; [split; eauto|].
    split; [intros [x Hx]; discriminate | lia].
  - intros j.
    destruct (Z.eqb_spec k 1) as [->|H1];
      [|destruct (Z.eqb_spec k 2) as [->|H2];
        [|destruct (Z.eqb_spec k 3) as [->|H3];
          [|intros [x Hx]; discriminate]]];
      intros _;
      destruct (Z.eqb_spec j 1) as [->|J1]; try (intros; reflexivity || discriminate);
      destruct (Z.eqb_spec j 2) as [->|J2]; try (intros; reflexivity || discriminate);
      destruct (Z.eqb_spec j 3) as [->|J3]; try (intros; reflexivity || discriminate).
Qed.

(** * The further properties, on the concrete runs *)

Lemma run_parts (x : Scenario.Run) : x = (fst x, (fst (snd x), Scenario.world_of x)).
Proof. destruct x as [r [ys w]]; reflexivity. Qed.

Lemma node_parts (x : Res State * (State * World)) :
  x = (fst x, (fst (snd x), snd (snd x))).
Proof. destruct x as [r [d w]]; reflexivity. Qed.

Lemma generator_missing_request_witness :
  recipe_generator (ext := Scenario.cookies) (∅, Scenario.w0)
  = (Err (KeyError "recipe_request"), (∅, Scenario.w0)).
Proof.
  exact (proj1 (generator_missing_request (ext := Scenario.cookies) ∅ Scenario.w0)
           (lookup_empty _)).
Defined.

Lemma generator_failure_effects_witness :
  fst Scenario.generate_lemon = Err IndexError /\
  exists request draft,
    ({[ "recipe_request" := VStr "lemon cake" ]} : State) !! "recipe_request"
    = Some request /\
    fst (snd Scenario.generate_lemon)
    = <["recipe" := VStr draft]> {[ "recipe_request" := VStr "lemon cake" ]}.
Proof.
  assert (H : fst Scenario.generate_lemon = Err IndexError) by (vm_compute; reflexivity).
  split; [exact H|].
  pose proof (node_parts Scenario.generate_lemon) as E. rewrite H in E.
  destruct (generator_failure_effects (ext := Scenario.lemon) _ _ _ _ _ E)
    as [(_ & _ & Hk) | [(request & _ & _ & Ho & _) | (request & draft & Hr & Hd & _)]];
    [discriminate Hk | discriminate Ho |].
  exists request, draft. split; assumption.
Defined.

Lemma generator_success_effects_witness :
  exists (upd d' : State) (w' : World),
    Scenario.generate_cookies = (Ok upd, (d', w')) /\ d' = upd /\
    upd !! "recipe_request" = Some (VStr "chocolate cookies").
Proof.
  destruct (succeeded_inv Scenario.generate_cookies) as (upd & [d' w'] & E);
    [vm_compute; reflexivity|].
  exists upd, d', w'. split; [exact E|].
  destruct (generator_success_effects (ext := Scenario.cookies) _ _ _ _ _ E)
    as (Hd & _ & Hframe).
  split; [exact Hd|]. rewrite Hframe by discriminate. apply lookup_singleton_eq.
Defined.

Lemma generator_allergenes_stripped_witness :
  exists (upd : State) (a : string),
    fst Scenario.generate_cookies = Ok upd /\
    upd !! "allergenes" = Some (VStr a) /\ Str.strip a = a.
Proof.
  destruct (succeeded_inv Scenario.generate_cookies) as (upd & [d' w'] & E);
    [vm_compute; reflexivity|].
  destruct (generator_allergenes_stripped (ext := Scenario.cookies) _ _ _ _ _ E)
    as (a & Ha & Hs).
  exists upd, a. split; [rewrite E; reflexivity | split; assumption].
Defined.

Lemma generator_allergenes_without_marker_witness :
  exists (upd : State) (a : string),
    fst Scenario.generate_cookies = Ok upd /\
    upd !! "allergenes" = Some (VStr a) /\ Str.contains "ALLERGENES FOUND" a = false.
Proof.
  destruct (succeeded_inv Scenario.generate_cookies) as (upd & [d' w'] & E);
    [vm_compute; reflexivity|].
  destruct (generator_allergenes_without_marker (ext := Scenario.cookies) _ _ _ _ _ E)
    as (a & Ha & Hs).
  exists upd, a. split; [rewrite E; reflexivity | split; assumption].
Defined.

Lemma finalizer_missing_recipe_witness :
  recipe_finalizer (ext := Scenario.cookies)
    ({[ "human_feedback" := VStr "no dairy please" ]}, Scenario.w0)
  = (Err (KeyError "recipe"),
     ({[ "human_feedback" := VStr "no dairy please" ]}, Scenario.w0)).
Proof.
  apply (proj1 (finalizer_missing_recipe (ext := Scenario.cookies) _ Scenario.w0)).
  apply lookup_singleton_ne. discriminate.
Defined.

Lemma finalizer_effects_witness :
  fst (snd (recipe_finalizer (ext := Scenario.cookies)
              ({[ "recipe" := VStr "DRAFT" ]}, Scenario.w0))) !! "recipe"
  = ({[ "recipe" := VStr "DRAFT" ]} : State) !! "recipe".
Proof.
  refine (proj1 (finalizer_effects (ext := Scenario.cookies) _ _ _ _ _
                   (node_parts (recipe_finalizer (ext := Scenario.cookies)
                                  ({[ "recipe" := VStr "DRAFT" ]}, Scenario.w0))))
            "recipe" _).
  discriminate.
Defined.

Lemma submit_keeps_other_threads_witness :
  w_memory (Scenario.world_of Scenario.first_cookies) !! "77aa"
  = w_memory Scenario.w0 !! "77aa".
Proof.
  refine (proj1 (submit_keeps_other_threads (ext := Scenario.cookies)
                   "chocolate cookies" [] None None Scenario.w0 _ _ _
                   (run_parts Scenario.first_cookies)) "77aa" _).
  discriminate.
Defined.

Lemma submit_user_id_witness :
  Forall (fun y : Yield => snd y = "3f2b") (fst (snd Scenario.first_cookies)) /\
  w_uuids (Scenario.world_of Scenario.first_cookies) = 1.
Proof.
  exact (proj2 (submit_user_id (ext := Scenario.cookies)
                  "chocolate cookies" [] None None Scenario.w0 _ _ _
                  (run_parts Scenario.first_cookies))
           (or_introl eq_refl)).
Defined.

Lemma submit_never_out_of_steps_witness :
  fst Scenario.first_lemon <> Err GraphRecursionError.
Proof.
  exact (submit_never_out_of_steps (ext := Scenario.lemon)
           "lemon cake" [] None None Scenario.w0 _ _ _
           (run_parts Scenario.first_lemon)).
Defined.

Lemma submit_yields_first_witness :
  fst Scenario.first_lemon = Err IndexError /\ fst (snd Scenario.first_lemon) <> [].
Proof.
  split; [vm_compute; reflexivity|].
  exact (submit_yields_first (ext := Scenario.lemon)
           "lemon cake" [] None None Scenario.w0 _ _ _
           (run_parts Scenario.first_lemon)).
Defined.

Lemma message_ignored_without_flag_witness :
  process_request (ext := Scenario.cookies) "banana bread" []
    (Some {[ "recipe_request" := VStr "lemon cake" ]}) None
  = process_request (ext := Scenario.cookies) "apple pie" []
      (Some {[ "recipe_request" := VStr "lemon cake" ]}) None.
Proof.
  apply message_ignored_without_flag.
  - intros H. apply (f_equal (fun m : State => m !! "recipe_request")) in H.
    rewrite lookup_singleton_eq, lookup_empty in H. discriminate H.
  - left. apply lookup_singleton_ne. discriminate.
Defined.

Lemma first_submit_failure_witness :
  fst Scenario.first_lemon = Err IndexError /\
  fst (snd Scenario.first_lemon)
  = [([(Some "lemon cake", VStr "Generating recipe...")],
      {[ "recipe_request" := VStr "lemon cake" ]}, "3f2b")].
Proof.
  assert (H : fst Scenario.first_lemon = Err IndexError) by (vm_compute; reflexivity).
  split; [exact H|].
  pose proof (run_parts Scenario.first_lemon) as E. rewrite H in E.
  exact (proj1 (proj2 (first_submit_failure (ext := Scenario.lemon)
                         "lemon cake" [] None None Scenario.w0 _ _ _
                         (or_introl eq_refl) E))).
Defined.

Lemma cookies_recipe :
  Scenario.last_state Scenario.first_cookies !! "recipe" = Some (VStr "DRAFT").
Proof. vm_compute; reflexivity. Qed.

Lemma resume_empty_feedback_witness :
  fst Scenario.empty_cookies = Ok tt /\
  w_calls (Scenario.world_of Scenario.empty_cookies)
  = w_calls (Scenario.world_of Scenario.first_cookies).
Proof.
  destruct (resume_empty_feedback (ext := Scenario.cookies)
              (Scenario.last_history Scenario.first_cookies) _ _ _ _
              (proj2 cookies_waiting) cookies_recipe)
    as (ys & w' & st' & E & Hcalls & _).
  unfold Scenario.empty_cookies, Scenario.again. rewrite E. split; [reflexivity | exact Hcalls].
Defined.

Lemma resume_with_feedback_witness :
  w_calls (Scenario.world_of Scenario.second_cookies)
  = w_calls (Scenario.world_of Scenario.first_cookies)
    ++ [modify_prompt (VStr "DRAFT") (VStr "no dairy please")].
Proof.
  refine (proj1 (resume_with_feedback (ext := Scenario.cookies) "no dairy please"
                   _ _ _ _ _ _ _ _ (proj2 cookies_waiting) cookies_recipe _
                   cookies_second_run)).
  discriminate.
Defined.

Lemma flaky_waits_at_finalizer :
  fst Scenario.second_flaky = Err OpenAIError /\
  Scenario.last_user Scenario.second_flaky = "3f2b" /\
  Scenario.last_state Scenario.second_flaky !! "human_feedback"
  = Some (VStr "no dairy please") /\
  Scenario.last_state Scenario.second_flaky !! "allergenes_detected"
  = Some (VBool false) /\
  cp_next <$> (w_memory (Scenario.world_of Scenario.second_flaky)
                 !! Scenario.last_user Scenario.second_flaky)
  = Some (Some "recipe_finalizer").
Proof. repeat apply conj; vm_compute; reflexivity. Qed.

Lemma finalize_retry_witness :
  w_ran (Scenario.world_of Scenario.third_flaky)
  = w_ran (Scenario.world_of Scenario.second_flaky) ++ ["recipe_finalizer"] /\
  fst Scenario.third_flaky = Ok tt.
Proof.
  destruct flaky_waits_at_finalizer as (_ & Hu & Hfb & Hflag & Hcp).
  destruct (w_memory (Scenario.world_of Scenario.second_flaky)
              !! Scenario.last_user Scenario.second_flaky) as [cp|] eqn:Hm;
    [|discriminate Hcp].
  injection Hcp as Hn.
  split; [|vm_compute; reflexivity].
  refine (proj1 (finalize_retry (ext := Scenario.cookies_flaky) "once more"
                   (Scenario.last_history Scenario.second_flaky)
                   (Scenario.last_state Scenario.second_flaky)
                   (Scenario.last_user Scenario.second_flaky)
                   (Scenario.world_of Scenario.second_flaky) cp _ _ _
                   _ _ _ Hm Hn (run_parts Scenario.third_flaky))).
  - rewrite Hu. discriminate.
  - rewrite Hfb. eexists. reflexivity.
  - right. exists (VBool false). split; [exact Hflag | reflexivity].
Defined.

Lemma example_click_while_waiting_witness :
  w_calls (Scenario.world_of Scenario.click_cookies)
  = w_calls (Scenario.world_of Scenario.first_cookies)
    ++ [modify_prompt (VStr "DRAFT") (VStr "I want a recipe for a lemon cake")] /\
  w_ran (Scenario.world_of Scenario.click_cookies)
  = w_ran (Scenario.world_of Scenario.first_cookies)
    ++ ["human_feedback_handler"; "recipe_finalizer"].
Proof.
  destruct (example_click_while_waiting (ext := Scenario.cookies) 1
              (Scenario.last_history Scenario.first_cookies) _ _ _ _ _ _ _ _
              (proj2 cookies_waiting) cookies_recipe eq_refl
              (run_parts Scenario.click_cookies))
    as (text & Ht & Hran & Hcalls).
  injection Ht as <-. split; assumption.
Defined.

Lemma example_click_after_completion_witness :
  process_request (ext := Scenario.cookies) "I want a recipe for banana bread"
    (Scenario.last_history Scenario.second_cookies)
    (Some (Scenario.last_state Scenario.second_cookies))
    (Some (Scenario.last_user Scenario.second_cookies))
    ([], Scenario.world_of Scenario.second_cookies)
  = (Ok tt, ([(Scenario.last_history Scenario.second_cookies,
               Scenario.last_state Scenario.second_cookies,
               Scenario.last_user Scenario.second_cookies)],
             Scenario.world_of Scenario.second_cookies)).
Proof.
  exact (example_click_after_completion (ext := Scenario.cookies) 3 _ _ _ _ _
           (proj2 cookies_completed) eq_refl).
Defined.

Lemma load_example_domain_witness :
  is_Some (load_example 2) /\ load_example 4 = None.
Proof.
  split.
  - exact (proj2 (proj1 (load_example_domain 2)) (or_intror (or_introl eq_refl))).
  - reflexivity.
Defined.

Lemma history_only_grows_witness :
  exists (h0 : list Entry) (s0 : State) (u : string) (more : list Yield),
    fst (snd Scenario.second_cookies) = (h0, s0, u) :: more /\
    Forall (fun y : Yield => h0 `prefix_of` fst (fst y)) more /\
    h0 = Scenario.last_history Scenario.first_cookies
         ++ [(Some "no dairy please", VStr "Updating recipe...")].
Proof.
  destruct (history_only_grows (ext := Scenario.cookies) _ _ _ _ _ _ _ _ cookies_second_run)
    as (h0 & s0 & u & more & Hys & Hall & Hh).
  exists h0, s0, u, more. split; [exact Hys|]. split; [exact Hall|].
  destruct (proj2 cookies_waiting) as (_ & (v & Hv & Ht) & _).
  rewrite Hv, Ht in Hh.
  destruct (decide (Scenario.last_state Scenario.first_cookies = ∅)) as [He|_];
    [|exact Hh].
  rewrite He, lookup_empty in Hv. discriminate Hv.
Defined.
